(** * ibmiotf: the connection / publish-acknowledgement core

    A shallow embedding of [src/ibmiotf/__init__.py]: the broker address
    resolution, the exception classes, the MQTT [AbstractClient]
    (connect, disconnect, the paho callbacks, the encoder registry) and the
    [HttpAbstractClient] (encoder registry, content types).

    Python objects are modelled as follows.
    - An argument that is [None] or a [str] is an [option string].
    - A dict is a [gmap]; the value [None] stored in
      [_onPublishCallbacks] is [None : option pyref], so a present key that
      holds [None] reads [Some None].
    - A callable or a codec module is a reference [pyref]; calling a
      callable is recorded as an [EvInvoke] event, and whether the call
      returns or raises is an input of the method that makes it.
    - Every effect on the outside world (a call into the paho client, a log
      record, the call of a user callback) is an [event]; a method is a
      function from the client's state to the final state, the events it
      emitted in order, and either its return value or the exception that
      left it.  State changes made before an exception is raised stay. *)

From Stdlib Require Import ZArith Ascii String List Bool Lia.
From stdpp Require Import base option list gmap strings pretty.

Open Scope Z_scope.
Open Scope string_scope.
Open Scope list_scope.

(** ** Exceptions *)

(** Class objects.  The first six are Python's own; the others are the
    [class] statements of the module. *)
Module Cls.

Inductive t : Type :=
| BaseException
| Exception
| LookupError
| KeyError
| TypeError
| OSError                         (* [socket.error] is this class *)
| ConnectionException
| ConfigurationException
| UnsupportedAuthenticationMethod
| InvalidEventException
| MissingMessageDecoderException
| MissingMessageEncoderException
| APIException.

#[global] Instance eq_dec : EqDecision t.
Proof. solve_decision. Defined.

(** The base named in each [class X(Base)] statement; [None] for the root. *)
Definition base (c : t) : option t :=
  match c with
  | BaseException => None
  | Exception => Some BaseException
  | LookupError => Some Exception
  | KeyError => Some LookupError
  | TypeError => Some Exception
  | OSError => Some Exception
  | ConnectionException => Some Exception
  | ConfigurationException => Some ConnectionException
  | UnsupportedAuthenticationMethod => Some ConnectionException
  | InvalidEventException => Some Exception
  | MissingMessageDecoderException => Some Exception
  | MissingMessageEncoderException => Some Exception
  | APIException => Some Exception
  end.

(** The class and its bases, nearest first, following [base] for at most
    [fuel] steps. *)
Fixpoint mro_upto (fuel : nat) (c : t) : list t :=
  c :: match fuel with
       | O => []
       | S n => match base c with
                | Some b => mro_upto n b
                | None => []
                end
       end.

(** No chain of bases is longer than three steps. *)
Definition mro (c : t) : list t := mro_upto 3 c.

Definition issubclass (c d : t) : bool := bool_decide (d ∈ mro c).

End Cls.

(** Exception values with the fields their [__init__] stores. *)
Inductive exn : Type :=
| ConnectionException (reason : string)
| ConfigurationException (reason : string)
| UnsupportedAuthenticationMethod (method : string)
| InvalidEventException (reason : string)
| MissingMessageDecoderException (format : string)
| MissingMessageEncoderException (format : string)
| APIException (httpCode : Z) (message : string) (response : string)
| KeyError (key : string)
| TypeError (msg : string)
| socket_error (detail : string).

Definition class_of (e : exn) : Cls.t :=
  match e with
  | ConnectionException _ => Cls.ConnectionException
  | ConfigurationException _ => Cls.ConfigurationException
  | UnsupportedAuthenticationMethod _ => Cls.UnsupportedAuthenticationMethod
  | InvalidEventException _ => Cls.InvalidEventException
  | MissingMessageDecoderException _ => Cls.MissingMessageDecoderException
  | MissingMessageEncoderException _ => Cls.MissingMessageEncoderException
  | APIException _ _ _ => Cls.APIException
  | KeyError _ => Cls.KeyError
  | TypeError _ => Cls.TypeError
  | socket_error _ => Cls.OSError
  end.

(** [isinstance(e, c)], which is also the test of an [except c] clause. *)
Definition isinstance (e : exn) (c : Cls.t) : bool :=
  Cls.issubclass (class_of e) c.

(** [repr(s)] of a [str], as [str(KeyError(s))] prints it.  The quote is the
    apostrophe, or the double quote when the string has an apostrophe and no
    double quote; the quote and the backslash are escaped with a backslash,
    tab, newline and carriage return are written with their letter, the
    other control characters and DEL as [\xhh].  Bytes above 127 are copied:
    they are taken to spell printable characters. *)
Definition backslash : ascii := ascii_of_nat 92.
Definition apostrophe : ascii := ascii_of_nat 39.
Definition double_quote : ascii := ascii_of_nat 34.

Definition hex_digit (n : nat) : ascii :=
  if (n <? 10)%nat then ascii_of_nat (48 + n) else ascii_of_nat (87 + n).

Fixpoint has_char (c : ascii) (s : string) : bool :=
  match s with
  | EmptyString => false
  | String a rest => Ascii.eqb a c || has_char c rest
  end.

Definition repr_char (quote c : ascii) : string :=
  let n := nat_of_ascii c in
  if Ascii.eqb c quote || Ascii.eqb c backslash
  then String backslash (String c EmptyString)
  else if (n =? 9)%nat then String backslash "t"
  else if (n =? 10)%nat then String backslash "n"
  else if (n =? 13)%nat then String backslash "r"
  else if (n <? 32)%nat || (n =? 127)%nat
  then String backslash
         (String "x" (String (hex_digit (n / 16))
                        (String (hex_digit (n mod 16)) EmptyString)))
  else String c EmptyString.

Fixpoint repr_chars (quote : ascii) (s : string) : string :=
  match s with
  | EmptyString => EmptyString
  | String c rest => repr_char quote c +:+ repr_chars quote rest
  end.

Definition py_repr (s : string) : string :=
  let quote := if has_char apostrophe s && negb (has_char double_quote s)
               then double_quote else apostrophe in
  String quote (repr_chars quote s +:+ String quote EmptyString).

(** [str(e)]: the [__str__] of each class.  [KeyError] prints the [repr] of
    its key; for [socket_error] the text is carried as is. *)
Definition exn_str (e : exn) : string :=
  match e with
  | ConnectionException reason => reason
  | ConfigurationException reason => reason
  | UnsupportedAuthenticationMethod method =>
      "Unsupported authentication method: " +:+ method
  | InvalidEventException reason => "Invalid Event: " +:+ reason
  | MissingMessageDecoderException format =>
      "No message decoder defined for message format: " +:+ format
  | MissingMessageEncoderException format =>
      "No message encoder defined for message format: " +:+ format
  | APIException httpCode message _ =>
      "[" +:+ pretty httpCode +:+ "] " +:+ message
  | KeyError key => py_repr key
  | TypeError msg => msg
  | socket_error detail => detail
  end.

(** The format a missing-codec error names, when [e] is one. *)
Definition missing_codec_format (e : exn) : option string :=
  match e with
  | MissingMessageDecoderException format => Some format
  | MissingMessageEncoderException format => Some format
  | _ => None
  end.

(** ** Broker address *)

(** Truth value of an argument that is [None] or a [str]. *)
Definition truthy (o : option string) : bool :=
  match o with
  | None => false
  | Some s => negb (String.eqb s "")
  end.

(** The string held by an argument known to be a [str]. *)
Definition str_of (o : option string) : string := default "" o.

Definition _getBrokerAddress (domain orgId completeBrokerUrl : option string)
  : exn + string :=
  if negb (truthy completeBrokerUrl)
     && (negb (truthy domain) || negb (truthy orgId))
  then inl (ConfigurationException
              ("No full broker URL given, so both domain and organisation "
               +:+ "must be specified"))
  else inr (if truthy completeBrokerUrl then str_of completeBrokerUrl
            else str_of orgId +:+ ".messaging." +:+ str_of domain).

(** ** Effects *)

(** A callable or a codec module, known by its identity. *)
Definition pyref : Type := nat.

Inductive level : Type := Debug | Info | Warning | Error | Critical.

#[global] Instance level_eq_dec : EqDecision level.
Proof. solve_decision. Defined.

(** The text of a log record.  The two lines written by [stats] also print
    the elapsed wall-clock time and a rate, both floats; only the counter
    they print is kept. *)
Inductive logmsg : Type :=
| Text (s : string)
| StatsPublished (messages : Z)
| StatsReceived (recv : Z).

Inductive event : Type :=
| EvLog (lvl : level) (msg : logmsg)          (* self.logger.<lvl>(msg) *)
| EvConnect (address : string) (port keepalive : Z)   (* self.client.connect *)
| EvLoopStart                                  (* self.client.loop_start() *)
| EvLoopStop                                   (* self.client.loop_stop() *)
| EvDisconnect                                 (* self.client.disconnect() *)
| EvWait (timeout : Z)                         (* self.connectEvent.wait *)
| EvInvoke (f : pyref).                        (* f() *)

#[global] Instance logmsg_eq_dec : EqDecision logmsg.
Proof. solve_decision. Defined.

#[global] Instance event_eq_dec : EqDecision event.
Proof. solve_decision. Defined.

(** What a call leaves behind. *)
Record reply (St A : Type) : Type := Reply {
  final : St;
  emitted : list event;
  result : exn + A
}.
Arguments Reply {St A} _ _ _.
Arguments final {St A} _.
Arguments emitted {St A} _.
Arguments result {St A} _.

Definition Py (St A : Type) : Type := St -> reply St A.

#[global] Instance Py_ret {St} : MRet (Py St) :=
  fun A (a : A) (s : St) => Reply s [] (inr a).

#[global] Instance Py_bind {St} : MBind (Py St) :=
  fun A B (k : A -> Py St B) (m : Py St A) (s : St) =>
    match m s with
    | Reply s' evs (inl e) => Reply s' evs (inl e)
    | Reply s' evs (inr a) =>
        match k a s' with
        | Reply s'' evs' x => Reply s'' (evs ++ evs') x
        end
    end.

Definition raise {St A} (e : exn) : Py St A := fun s => Reply s [] (inl e).
Definition emit {St} (ev : event) : Py St unit := fun s => Reply s [ev] (inr tt).
Definition gets {St A} (f : St -> A) : Py St A := fun s => Reply s [] (inr (f s)).
Definition modify {St} (f : St -> St) : Py St unit := fun s => Reply (f s) [] (inr tt).

(** [try: body except cls as e: handler e]. *)
Definition try_except {St A} (body : Py St A) (cls : Cls.t)
    (handler : exn -> Py St A) : Py St A :=
  fun s =>
    match body s with
    | Reply s' evs (inl e) =>
        if isinstance e cls
        then match handler e s' with
             | Reply s'' evs' x => Reply s'' (evs ++ evs') x
             end
        else Reply s' evs (inl e)
    | Reply s' evs (inr a) => Reply s' evs (inr a)
    end.

Definition log {St} (lvl : level) (s : string) : Py St unit :=
  emit (EvLog lvl (Text s)).

(** [f()] for a value read from a dict.  [None] is not callable.  A callable
    is called, and [raises] is what that call does: it returns ([None]) or
    it raises an exception of its own, which leaves the caller. *)
Definition call {St} (f : option pyref) (raises : option exn) : Py St unit :=
  match f with
  | Some g =>
      emit (EvInvoke g);;
      match raises with
      | Some e => raise e
      | None => mret tt
      end
  | None => raise (TypeError "'NoneType' object is not callable")
  end.

(** ["%s" % x] for an attribute that is [None] or a [str]. *)
Definition fmt_s (o : option string) : string :=
  match o with
  | Some s => s
  | None => "None"
  end.

(** What the paho client and the broker do while [connect] runs: whether
    [self.client.connect] raises, and whether the connected-condition is set
    before [wait] gives up. *)
Record transport : Type := Transport {
  connect_raises : option exn;
  signalled : bool
}.

(** ** The constructor's calls *)


(** What [AbstractClient.__init__] does besides filling attributes, in order:
    its log records and its calls on the paho client.  [tls_set] is always
    given [certfile=None], [keyfile=None] and [cert_reqs=ssl.CERT_REQUIRED];
    only the two arguments that vary are kept. *)
Inductive init_call : Type :=
| InitLog (lvl : level) (s : string)
| PahoClient (clientId : string) (clean_session : bool) (transport : string)
| EnableLogger
| TlsSet (ca_certs : option string) (tls_version : pyref)
| UsernamePwSet (username : string) (password : option string).

#[global] Instance init_call_eq_dec : EqDecision init_call.
Proof. solve_decision. Defined.

(** ** The MQTT client *)

Module AbstractClient.

(** The attributes of [self] that the methods below read or write.
    [connectEvent] is the flag of the [threading.Event]. *)
Record t : Type := Make {
  organization : option string;
  username : option string;
  password : option string;
  address : string;
  keepAlive : Z;
  connectEvent : bool;
  messages : Z;
  recv : Z;
  clientId : string;
  port : Z;
  _messageEncoderModules : gmap string pyref;
  _onPublishCallbacks : gmap Z (option pyref)
}.

Definition set_connectEvent (b : bool) (self : t) : t :=
  Make (organization self) (username self) (password self) (address self)
       (keepAlive self) b (messages self) (recv self) (clientId self)
       (port self) (_messageEncoderModules self) (_onPublishCallbacks self).

Definition set_messages (n : Z) (self : t) : t :=
  Make (organization self) (username self) (password self) (address self)
       (keepAlive self) (connectEvent self) n (recv self) (clientId self)
       (port self) (_messageEncoderModules self) (_onPublishCallbacks self).

Definition set_keepAlive (n : Z) (self : t) : t :=
  Make (organization self) (username self) (password self) (address self)
       n (connectEvent self) (messages self) (recv self) (clientId self)
       (port self) (_messageEncoderModules self) (_onPublishCallbacks self).

Definition set__messageEncoderModules (m : gmap string pyref) (self : t) : t :=
  Make (organization self) (username self) (password self) (address self)
       (keepAlive self) (connectEvent self) (messages self) (recv self)
       (clientId self) (port self) m (_onPublishCallbacks self).

Definition set__onPublishCallbacks (m : gmap Z (option pyref)) (self : t) : t :=
  Make (organization self) (username self) (password self) (address self)
       (keepAlive self) (connectEvent self) (messages self) (recv self)
       (clientId self) (port self) (_messageEncoderModules self) m.


Definition getMessageEncoderModule (messageFormat : string) : Py t pyref :=
  modules ← gets _messageEncoderModules;
  match modules !! messageFormat with
  | Some module => mret module
  | None => raise (KeyError messageFormat)
  end.

Definition setMessageEncoderModule (messageFormat : string) (module : pyref)
  : Py t unit :=
  modify (fun self =>
    set__messageEncoderModules
      (<[messageFormat := module]> (_messageEncoderModules self)) self).

Definition logAndRaiseException {A} (e : exn) : Py t A :=
  log Critical (exn_str e);;
  raise e.

(** The text of the debug record that opens [connect]. *)
Definition connecting (self : t) : string :=
  "Connecting... (address = " +:+ address self
  +:+ ", port = " +:+ pretty (port self)
  +:+ ", clientId = " +:+ clientId self
  +:+ ", username = " +:+ fmt_s (username self)
  +:+ ", password = " +:+ fmt_s (password self) +:+ ")".

(** [self.client.connect] and [self.connectEvent.wait(timeout=30)] answer as
    [env] says; [wait] returns the flag of the event, so the flag afterwards
    is what it returned.  The [ConnectionException] of the timeout branch is
    raised inside the [try] and passes the [except socket.error] clause. *)
Definition connect (env : transport) : Py t unit :=
  self ← gets id;
  log Debug (connecting self);;
  try_except
    (modify (set_connectEvent false);;
     emit (EvConnect (address self) (port self) (keepAlive self));;
     match connect_raises env with
     | Some e => raise e
     | None => mret tt
     end;;
     emit EvLoopStart;;
     emit (EvWait 30);;
     modify (set_connectEvent (signalled env));;
     if negb (signalled env) then
       emit EvLoopStop;;
       logAndRaiseException
         (ConnectionException
            ("Operation timed out connecting to IBM Watson IoT Platform: "
             +:+ address self))
     else mret tt)
    Cls.OSError
    (fun serr =>
       emit EvLoopStop;;
       logAndRaiseException
         (ConnectionException
            ("Failed to connect to IBM Watson IoT Platform: "
             +:+ address self +:+ " - " +:+ exn_str serr))).

Definition disconnect : Py t unit :=
  emit EvDisconnect;;
  emit EvLoopStop;;
  log Info "Closed connection to the IBM Watson IoT Platform".

Definition stats : Py t unit :=
  self ← gets id;
  emit (EvLog Debug (StatsPublished (messages self)));;
  emit (EvLog Debug (StatsReceived (recv self))).

Definition on_log (string : string) : Py t unit :=
  log Debug string.

Definition on_disconnect (rc : Z) : Py t unit :=
  (if bool_decide (rc = 1)
   then log Error "Unexpected disconnect from the IBM Watson IoT Platform"
   else log Info "Disconnected from the IBM Watson IoT Platform");;
  stats.

(** The body runs under [self._messagesLock], so it is one step of the
    client's state.  [raises] is what the stored callable does if this call
    reaches it (see [call]). *)
Definition on_publish (mid : Z) (raises : option exn) : Py t unit :=
  modify (fun self => set_messages (messages self + 1) self);;
  callbacks ← gets _onPublishCallbacks;
  match callbacks !! mid with
  | Some midOnPublish =>
      modify (fun self =>
        set__onPublishCallbacks (delete mid (_onPublishCallbacks self)) self);;
      call midOnPublish raises
  | None =>
      modify (fun self =>
        set__onPublishCallbacks
          (<[mid := None]> (_onPublishCallbacks self)) self)
  end.

Definition setKeepAliveInterval (newKeepAliveInterval : Z) : Py t unit :=
  modify (set_keepAlive newKeepAliveInterval).

Definition getKeepAliveInterval : Py t Z := gets keepAlive.

(** Modelled from the spec: [registerOrInvoke], the registration half of the
    publish acknowledgement tracker.  The publishing clients that hold it
    are not among the source files.  Section 4.2: if the identifier is
    present as a sentinel, invoke the callback immediately and remove the
    sentinel; otherwise store the callback under the identifier.  It takes
    the same lock as [on_publish], so it is one step too.  [raises] is what
    the callback does if it is invoked here (see [call]); the two actions
    are taken in the order the sentence names them, so a callback that
    raises ends the call before the sentinel is removed. *)
Definition registerOrInvoke (publishId : Z) (callback : pyref)
    (raises : option exn) : Py t unit :=
  callbacks ← gets _onPublishCallbacks;
  match callbacks !! publishId with
  | Some None =>
      call (Some callback) raises;;
      modify (fun self =>
        set__onPublishCallbacks
          (delete publishId (_onPublishCallbacks self)) self)
  | _ =>
      modify (fun self =>
        set__onPublishCallbacks
          (<[publishId := Some callback]> (_onPublishCallbacks self)) self)
  end.

End AbstractClient.

(** ** The HTTP client *)

Module HttpAbstractClient.

(** Of [self], only the codec table is read by the methods below; the
    logger built by [__init__] is outside the model. *)
Record t : Type := Make {
  _messageEncoderModules : gmap string pyref
}.

Definition __init__ : t := Make ∅.

(** The [logHandlers] argument: [None], a list of handlers, or one
    handler. *)
Inductive logHandlers_arg : Type :=
| NoHandlers
| HandlerList (handlers : list pyref)
| OneHandler (handler : pyref).

(** A handler added to the logger: one the caller supplied, or one of the
    two defaults with the arguments that [__init__] fixes. *)
Inductive handler : Type :=
| Supplied (h : pyref)
| RotatingFileHandler (filename : string) (maxBytes backupCount : Z)
| StreamHandler.

(** [s.replace(old, new)] for one-character [old] and [new]. *)
Fixpoint replace (old new : ascii) (s : string) : string :=
  match s with
  | EmptyString => EmptyString
  | String c rest =>
      String (if Ascii.eqb c old then new else c) (replace old new rest)
  end.

Definition logFileName (clientId : string) : string :=
  replace ":" "_" clientId +:+ ".log".

(** The [addHandler] calls of [__init__], in order.  [if logHandlers:] is
    false for [None] and for the empty list. *)
Definition __init__handlers (clientId : string) (logHandlers : logHandlers_arg)
  : list handler :=
  match logHandlers with
  | HandlerList (h :: rest) => map Supplied (h :: rest)
  | OneHandler h => [Supplied h]
  | NoHandlers | HandlerList [] =>
      [RotatingFileHandler (logFileName clientId) 1024000 0; StreamHandler]
  end.

Definition connect : Py t unit := mret tt.

Definition disconnect : Py t unit := mret tt.

Definition getMessageEncoderModule (messageFormat : string) : Py t pyref :=
  modules ← gets _messageEncoderModules;
  match modules !! messageFormat with
  | Some module => mret module
  | None => raise (KeyError messageFormat)
  end.

Definition setMessageEncoderModule (messageFormat : string) (module : pyref)
  : Py t unit :=
  modify (fun self =>
    Make (<[messageFormat := module]> (_messageEncoderModules self))).

Definition logAndRaiseException {A} (e : exn) : Py t A :=
  log Critical (exn_str e);;
  raise e.

Definition getContentType (dataFormat : string) : Py t string :=
  let contentType := "application/json" in
  let contentType :=
    if String.eqb dataFormat "text" then "text/plain; charset=utf-8"
    else if String.eqb dataFormat "xml" then "application/xml"
    else if String.eqb dataFormat "bin" then "application/octet-stream"
    else "application/json" in
  mret contentType.

End HttpAbstractClient.

(** ** Histories *)

(** The calls that configure a codec table, in the order they are made. *)
Fixpoint register_all {St} (set : string -> pyref -> Py St unit)
    (regs : list (string * pyref)) (self : St) : St :=
  match regs with
  | [] => self
  | (messageFormat, module) :: rest =>
      register_all set rest (final (set messageFormat module self))
  end.

(** The two calls that touch the slot of a publish identifier.  The paho
    thread makes the first, the publishing thread the second; the lock orders
    them, so a run of the tracker is a list of them. *)
Inductive op : Type :=
| Ack (mid : Z) (raises : option exn)  (* on_publish(mosq, obj, mid) *)
| Register (mid : Z) (callback : pyref) (raises : option exn).


Definition step (o : op) : Py AbstractClient.t unit :=
  match o with
  | Ack mid raises => AbstractClient.on_publish mid raises
  | Register mid callback raises =>
      AbstractClient.registerOrInvoke mid callback raises
  end.

(** Each call belongs to its own caller: an exception ends that call and the
    next one runs on the state it left. *)
Fixpoint run (ops : list op) (self : AbstractClient.t)
  : AbstractClient.t * list event :=
  match ops with
  | [] => (self, [])
  | o :: rest =>
      let r := step o self in
      let '(self', evs) := run rest (final r) in
      (self', emitted r ++ evs)
  end.


(** The log records of a given level, in order. *)
Definition logged (lvl : level) (evs : list event) : list logmsg :=
  omap (fun ev => match ev with
                  | EvLog l msg => if decide (l = lvl) then Some msg else None
                  | _ => None
                  end) evs.

(** [needle] occurs in [s]. *)
Definition embeds (needle s : string) : Prop :=
  exists pre post : string, s = pre +:+ needle +:+ post.

(** ** Sessions *)

(** A call of one method of the MQTT client. *)
Inductive method : Type :=
| Connect (env : transport)
| Disconnect
| OnLog (s : string)
| OnDisconnect (rc : Z)
| OnPublish (mid : Z) (raises : option exn)
| Stats
| SetKeepAliveInterval (newKeepAliveInterval : Z)
| GetKeepAliveInterval
| SetMessageEncoderModule (messageFormat : string) (module : pyref)
| GetMessageEncoderModule (messageFormat : string).

(** The call, its return value dropped. *)
Definition invoke (m : method) : Py AbstractClient.t unit :=
  match m with
  | Connect env => AbstractClient.connect env
  | Disconnect => AbstractClient.disconnect
  | OnLog s => AbstractClient.on_log s
  | OnDisconnect rc => AbstractClient.on_disconnect rc
  | OnPublish mid raises => AbstractClient.on_publish mid raises
  | Stats => AbstractClient.stats
  | SetKeepAliveInterval n => AbstractClient.setKeepAliveInterval n
  | GetKeepAliveInterval => AbstractClient.getKeepAliveInterval;; mret tt
  | SetMessageEncoderModule fmt module =>
      AbstractClient.setMessageEncoderModule fmt module
  | GetMessageEncoderModule fmt =>
      AbstractClient.getMessageEncoderModule fmt;; mret tt
  end.

(** Calls made one after the other on the same client; an exception ends
    the call that raised it and the next call finds the state it left. *)
Fixpoint session (ms : list method) (self : AbstractClient.t)
  : AbstractClient.t * list event :=
  match ms with
  | [] => (self, [])
  | m :: rest =>
      let r := invoke m self in
      let '(self', evs) := session rest (final r) in
      (self', emitted r ++ evs)
  end.

(** What each call of a session returned or raised, in order. *)
Fixpoint results (ms : list method) (self : AbstractClient.t)
  : list (exn + unit) :=
  match ms with
  | [] => []
  | m :: rest =>
      let r := invoke m self in
      result r :: results rest (final r)
  end.

Definition is_connect (m : method) : bool :=
  match m with Connect _ => true | _ => false end.

Definition is_on_publish (m : method) : bool :=
  match m with OnPublish _ _ => true | _ => false end.

Definition is_set_keepalive (m : method) : bool :=
  match m with SetKeepAliveInterval _ => true | _ => false end.

Definition sets_module (messageFormat : string) (m : method) : bool :=
  match m with
  | SetMessageEncoderModule fmt _ => String.eqb fmt messageFormat
  | _ => false
  end.

Definition acknowledges (mid : Z) (m : method) : bool :=
  match m with
  | OnPublish mid' _ => bool_decide (mid' = mid)
  | _ => false
  end.

(** Whether the transport events seen so far leave the network loop
    running: the last of [loop_start] and [loop_stop] decides. *)
Definition loop_running (before : bool) (evs : list event) : bool :=
  fold_left (fun running ev =>
               match ev with
               | EvLoopStart => true
               | EvLoopStop => false
               | _ => running
               end) evs before.

(** ** Sample clients *)

Definition sample_client : AbstractClient.t :=
  AbstractClient.Make (Some "org1") (Some "user") (Some "secret")
    "org1.messaging.x.com" 60 false 0 0 "d:org1:type:dev" 8883 ∅ ∅.

(** The same client once the connected-condition is set. *)
Definition connected_client : AbstractClient.t :=
  AbstractClient.set_connectEvent true sample_client.

(** A client that has seen the acknowledgement of identifier 7 and no
    registration for it. *)
Definition acknowledged_client : AbstractClient.t :=
  final (AbstractClient.on_publish 7 None sample_client).

(** ** Proof support *)

(** Runs the monadic plumbing of a method body down to its case analysis. *)
Ltac py_run :=
  unfold mbind, mret, Py_bind, Py_ret, gets, modify, emit, raise, log, call;
  cbn -[pretty String.append AbstractClient.connecting isinstance].


(** Refutes membership in an explicit list of distinct constructors. *)
Ltac not_in_list :=
  let Hin := fresh "Hin" in
  intros Hin;
  repeat (apply elem_of_cons in Hin as [Hin | Hin]; [discriminate Hin |]);
  inversion Hin.

(** ** Exception classes *)

(** Three steps of [base] reach the root from every class, so [Cls.mro]
    lists all the bases. *)
Lemma mro_reaches_root (c : Cls.t) : last (Cls.mro c) = Some Cls.BaseException.
Proof. destruct c; reflexivity. Qed.

Lemma issubclass_refl (c : Cls.t) : Cls.issubclass c c = true.
Proof. destruct c; reflexivity. Qed.

Lemma issubclass_base (c b : Cls.t) :
  Cls.base c = Some b -> Cls.issubclass c b = true.
Proof. destruct c; intros H; inversion H; reflexivity. Qed.

Lemma issubclass_trans (c d e : Cls.t) :
  Cls.issubclass c d = true -> Cls.issubclass d e = true ->
  Cls.issubclass c e = true.
Proof. destruct c, d; try discriminate; destruct e; auto. Qed.

(** A raised exception that the clause matches goes to the handler. *)
Lemma try_except_caught {St A} (e : exn) (cls : Cls.t)
    (handler : exn -> Py St A) (s : St) :
  isinstance e cls = true ->
  let r := try_except (raise e) cls handler s in
  final r = final (handler e s) /\
  emitted r = emitted (handler e s) /\
  result r = result (handler e s).
Proof.
  intros H. unfold try_except, raise. rewrite H.
  destruct (handler e s) as [s' evs x]. cbn. auto.
Qed.

(** C10: [ConfigurationException] and [UnsupportedAuthenticationMethod] are
    declared with base [ConnectionException]; every value of either class is
    an instance of [ConnectionException], and an [except ConnectionException]
    clause takes it.  Neither is an instance of the other, and a plain
    [ConnectionException] is an instance of neither. *)
Theorem connection_exception_subtypes :
  Cls.base Cls.ConfigurationException = Some Cls.ConnectionException /\
  Cls.base Cls.UnsupportedAuthenticationMethod = Some Cls.ConnectionException /\
  (forall reason : string,
     isinstance (ConfigurationException reason) Cls.ConnectionException = true) /\
  (forall method : string,
     isinstance (UnsupportedAuthenticationMethod method)
       Cls.ConnectionException = true) /\
  (forall (St A : Type) (e : exn) (handler : exn -> Py St A) (s : St),
     class_of e = Cls.ConfigurationException \/
     class_of e = Cls.UnsupportedAuthenticationMethod ->
     let r := try_except (raise e) Cls.ConnectionException handler s in
     final r = final (handler e s) /\
     emitted r = emitted (handler e s) /\
     result r = result (handler e s)) /\
  Cls.issubclass Cls.ConfigurationException
    Cls.UnsupportedAuthenticationMethod = false /\
  Cls.issubclass Cls.UnsupportedAuthenticationMethod
    Cls.ConfigurationException = false /\
  Cls.issubclass Cls.ConnectionException Cls.ConfigurationException = false /\
  Cls.issubclass Cls.ConnectionException
    Cls.UnsupportedAuthenticationMethod = false.
Proof.
  repeat split; try reflexivity;
    apply try_except_caught; unfold isinstance;
    destruct H as [-> | ->]; reflexivity.
Qed.

Lemma connection_exception_subtypes_witness :
  let handler := fun e : exn => @log unit Error (exn_str e) in
  let r := try_except
             (raise (ConfigurationException "No full broker URL given"))
             Cls.ConnectionException handler tt in
  class_of (ConfigurationException "No full broker URL given")
    = Cls.ConfigurationException /\
  emitted r = [EvLog Error (Text "No full broker URL given")] /\
  result r = inr tt.
Proof.
  destruct connection_exception_subtypes as (_ & _ & _ & _ & H & _).
  destruct (H unit unit (ConfigurationException "No full broker URL given")
              (fun e : exn => @log unit Error (exn_str e)) tt
              (or_introl eq_refl)) as (_ & He & Hr).
  split; [reflexivity | split; [exact He | exact Hr]].
Defined.

(** ** Content types *)

(** C6: [getContentType] returns for every data format, changes nothing and
    logs nothing; it gives the MIME type of "json", "text", "xml" and "bin",
    and "application/json" for every other format. *)
Theorem getContentType_table (self : HttpAbstractClient.t) :
  (forall dataFormat : string,
     exists contentType : string,
       HttpAbstractClient.getContentType dataFormat self
       = Reply self [] (inr contentType)) /\
  result (HttpAbstractClient.getContentType "json" self)
    = inr "application/json" /\
  result (HttpAbstractClient.getContentType "text" self)
    = inr "text/plain; charset=utf-8" /\
  result (HttpAbstractClient.getContentType "xml" self)
    = inr "application/xml" /\
  result (HttpAbstractClient.getContentType "bin" self)
    = inr "application/octet-stream" /\
  (forall dataFormat : string,
     dataFormat <> "text" -> dataFormat <> "xml" -> dataFormat <> "bin" ->
     result (HttpAbstractClient.getContentType dataFormat self)
     = inr "application/json").
Proof.
  split; [| repeat split].
  - intros dataFormat. eexists. reflexivity.
  - intros dataFormat Htext Hxml Hbin.
    unfold HttpAbstractClient.getContentType. cbn.
    apply String.eqb_neq in Htext, Hxml, Hbin.
    rewrite Htext, Hxml, Hbin. reflexivity.
Qed.

Lemma getContentType_table_witness :
  "yaml" <> "text" /\ "yaml" <> "xml" /\ "yaml" <> "bin" /\
  result (HttpAbstractClient.getContentType "yaml" HttpAbstractClient.__init__)
  = inr "application/json".
Proof.
  destruct (getContentType_table HttpAbstractClient.__init__)
    as (_ & _ & _ & _ & _ & H).
  assert (H1 : "yaml" <> "text") by discriminate.
  assert (H2 : "yaml" <> "xml") by discriminate.
  assert (H3 : "yaml" <> "bin") by discriminate.
  exact (conj H1 (conj H2 (conj H3 (H "yaml" H1 H2 H3)))).
Defined.

(** ** Broker address *)

Lemma truthy_Some (s : string) : s <> "" -> truthy (Some s) = true.
Proof.
  intros H. unfold truthy. apply String.eqb_neq in H. rewrite H. reflexivity.
Qed.

Lemma truthy_false (o : option string) :
  truthy o = false <-> o = None \/ o = Some "".
Proof.
  destruct o as [s |]; cbn.
  - rewrite negb_false_iff, String.eqb_eq. split.
    + intros ->. right. reflexivity.
    + intros [H | H]; congruence.
  - split; auto.
Qed.

(** An empty domain counts as no domain: the address is not composed. *)
Lemma getBrokerAddress_empty_domain :
  _getBrokerAddress (Some "") (Some "org1") None
  = inl (ConfigurationException
           "No full broker URL given, so both domain and organisation must be specified")
  /\ _getBrokerAddress (Some "") (Some "org1") None
     <> inr ("org1" +:+ ".messaging." +:+ "").
Proof. split; [reflexivity | discriminate]. Qed.

(** C5, amended: with no broker URL (absent or empty), a non-empty domain
    and a non-empty organization resolve to o.messaging.d; a non-empty broker
    URL is returned whatever domain and organization are; with no broker URL
    and the domain or the organization absent or empty, a
    [ConfigurationException] is raised. *)
Theorem getBrokerAddress_resolution :
  (forall (d o : string) (url : option string),
     d <> "" -> o <> "" -> truthy url = false ->
     _getBrokerAddress (Some d) (Some o) url
     = inr (o +:+ ".messaging." +:+ d)) /\
  (forall (url : string) (domain orgId : option string),
     url <> "" ->
     _getBrokerAddress domain orgId (Some url) = inr url) /\
  (forall domain orgId url : option string,
     truthy url = false ->
     truthy domain = false \/ truthy orgId = false ->
     exists reason : string,
       _getBrokerAddress domain orgId url
       = inl (ConfigurationException reason)).
Proof.
  repeat split.
  - intros d o url Hd Ho Hurl. unfold _getBrokerAddress.
    rewrite Hurl, (truthy_Some d Hd), (truthy_Some o Ho). reflexivity.
  - intros url domain orgId Hurl. unfold _getBrokerAddress.
    rewrite (truthy_Some url Hurl). reflexivity.
  - intros domain orgId url Hurl Hmiss. unfold _getBrokerAddress.
    rewrite Hurl. eexists.
    destruct Hmiss as [-> | ->]; cbn; [| rewrite orb_true_r]; reflexivity.
Qed.

Lemma getBrokerAddress_resolution_witness :
  ("x.com" <> "" /\ "org1" <> "" /\ truthy None = false /\
   _getBrokerAddress (Some "x.com") (Some "org1") None
   = inr "org1.messaging.x.com") /\
  ("mqtt.example.net" <> "" /\
   _getBrokerAddress None (Some "org1") (Some "mqtt.example.net")
   = inr "mqtt.example.net") /\
  (truthy None = false /\ truthy None = false /\
   exists reason : string,
     _getBrokerAddress None (Some "org1") None
     = inl (ConfigurationException reason)).
Proof.
  destruct getBrokerAddress_resolution as (H1 & H2 & H3).
  assert (Hd : "x.com" <> "") by discriminate.
  assert (Ho : "org1" <> "") by discriminate.
  assert (Hu : "mqtt.example.net" <> "") by discriminate.
  split; [| split].
  - exact (conj Hd (conj Ho (conj eq_refl
             (H1 "x.com" "org1" None Hd Ho eq_refl)))).
  - exact (conj Hu (H2 "mqtt.example.net" None (Some "org1") Hu)).
  - exact (conj eq_refl (conj eq_refl
             (H3 None (Some "org1") None eq_refl (or_introl eq_refl)))).
Defined.

(** ** Codec table *)

Lemma mqtt_set_lookup (self : AbstractClient.t) (k fmt : string) (m : pyref) :
  AbstractClient._messageEncoderModules
    (final (AbstractClient.setMessageEncoderModule k m self)) !! fmt
  = if decide (k = fmt) then Some m
    else AbstractClient._messageEncoderModules self !! fmt.
Proof. cbn. apply lookup_insert. Qed.

Lemma http_set_lookup (self : HttpAbstractClient.t) (k fmt : string) (m : pyref) :
  HttpAbstractClient._messageEncoderModules
    (final (HttpAbstractClient.setMessageEncoderModule k m self)) !! fmt
  = if decide (k = fmt) then Some m
    else HttpAbstractClient._messageEncoderModules self !! fmt.
Proof. cbn. apply lookup_insert. Qed.

(** Registering other formats leaves a format unregistered. *)
Lemma mqtt_register_all_absent (regs : list (string * pyref)) (fmt : string) :
  forall self : AbstractClient.t,
  AbstractClient._messageEncoderModules self !! fmt = None ->
  fmt ∉ regs.*1 ->
  AbstractClient._messageEncoderModules
    (register_all AbstractClient.setMessageEncoderModule regs self) !! fmt
  = None.
Proof.
  induction regs as [| [k m] rest IH]; intros self Hself Hnot; [exact Hself |].
  cbn [register_all]. apply IH.
  - rewrite mqtt_set_lookup. case_decide as Hk; [| exact Hself].
    exfalso. apply Hnot. subst k. cbn. left.
  - intros Hin. apply Hnot. cbn. right. exact Hin.
Qed.

Lemma http_register_all_absent (regs : list (string * pyref)) (fmt : string) :
  forall self : HttpAbstractClient.t,
  HttpAbstractClient._messageEncoderModules self !! fmt = None ->
  fmt ∉ regs.*1 ->
  HttpAbstractClient._messageEncoderModules
    (register_all HttpAbstractClient.setMessageEncoderModule regs self) !! fmt
  = None.
Proof.
  induction regs as [| [k m] rest IH]; intros self Hself Hnot; [exact Hself |].
  cbn [register_all]. apply IH.
  - rewrite http_set_lookup. case_decide as Hk; [| exact Hself].
    exfalso. apply Hnot. subst k. cbn. left.
  - intros Hin. apply Hnot. cbn. right. exact Hin.
Qed.

Lemma mqtt_get_absent (self : AbstractClient.t) (fmt : string) :
  AbstractClient._messageEncoderModules self !! fmt = None ->
  AbstractClient.getMessageEncoderModule fmt self
  = Reply self [] (inl (KeyError fmt)).
Proof.
  intros H. unfold AbstractClient.getMessageEncoderModule. py_run.
  rewrite H. reflexivity.
Qed.

Lemma http_get_absent (self : HttpAbstractClient.t) (fmt : string) :
  HttpAbstractClient._messageEncoderModules self !! fmt = None ->
  HttpAbstractClient.getMessageEncoderModule fmt self
  = Reply self [] (inl (KeyError fmt)).
Proof.
  intros H. unfold HttpAbstractClient.getMessageEncoderModule. py_run.
  rewrite H. reflexivity.
Qed.

(** A registered format is found again: the last module set for it. *)
Lemma mqtt_get_after_set (self : AbstractClient.t) (fmt : string) (m : pyref) :
  result (AbstractClient.getMessageEncoderModule fmt
            (final (AbstractClient.setMessageEncoderModule fmt m self)))
  = inr m.
Proof.
  unfold AbstractClient.getMessageEncoderModule. py_run.
  rewrite lookup_insert_eq. reflexivity.
Qed.

(** On a new client of either kind the lookup of "json" raises a [KeyError],
    which is neither of the missing-codec errors nor an instance of their
    classes. *)
Lemma getMessageEncoderModule_raises_KeyError :
  result (AbstractClient.getMessageEncoderModule "json" sample_client)
    = inl (KeyError "json") /\
  result (HttpAbstractClient.getMessageEncoderModule "json"
            HttpAbstractClient.__init__)
    = inl (KeyError "json") /\
  missing_codec_format (KeyError "json") = None /\
  isinstance (KeyError "json") Cls.MissingMessageDecoderException = false /\
  isinstance (KeyError "json") Cls.MissingMessageEncoderException = false.
Proof. repeat split. Qed.

(** C1, amended: for a format that no [setMessageEncoderModule] call has
    registered, [getMessageEncoderModule] of either client raises the dict's
    [KeyError] carrying that format, leaves the client as it is and logs
    nothing; it raises neither missing-codec error. *)
Theorem getMessageEncoderModule_unregistered
    (regs : list (string * pyref)) (fmt : string) :
  fmt ∉ regs.*1 ->
  (forall self : AbstractClient.t,
     AbstractClient._messageEncoderModules self !! fmt = None ->
     let self' :=
       register_all AbstractClient.setMessageEncoderModule regs self in
     AbstractClient.getMessageEncoderModule fmt self'
     = Reply self' [] (inl (KeyError fmt))) /\
  (forall self : HttpAbstractClient.t,
     HttpAbstractClient._messageEncoderModules self !! fmt = None ->
     let self' :=
       register_all HttpAbstractClient.setMessageEncoderModule regs self in
     HttpAbstractClient.getMessageEncoderModule fmt self'
     = Reply self' [] (inl (KeyError fmt))).
Proof.
  intros Hnot. split; intros self Hself self'.
  - apply mqtt_get_absent. apply mqtt_register_all_absent; assumption.
  - apply http_get_absent. apply http_register_all_absent; assumption.
Qed.

Lemma getMessageEncoderModule_unregistered_witness :
  ("xml" ∉ [("json", 1%nat); ("text", 2%nat)].*1) /\
  AbstractClient._messageEncoderModules sample_client !! "xml" = None /\
  result (AbstractClient.getMessageEncoderModule "xml"
            (register_all AbstractClient.setMessageEncoderModule
               [("json", 1%nat); ("text", 2%nat)] sample_client))
  = inl (KeyError "xml") /\
  result (HttpAbstractClient.getMessageEncoderModule "xml"
            (register_all HttpAbstractClient.setMessageEncoderModule
               [("json", 1%nat); ("text", 2%nat)] HttpAbstractClient.__init__))
  = inl (KeyError "xml").
Proof.
  assert (Hnot : "xml" ∉ [("json", 1%nat); ("text", 2%nat)].*1).
  { cbn. not_in_list. }
  destruct (getMessageEncoderModule_unregistered
              [("json", 1%nat); ("text", 2%nat)] "xml" Hnot) as [Hm Hh].
  split; [exact Hnot |]. split; [reflexivity |]. split.
  - exact (f_equal result (Hm sample_client eq_refl)).
  - exact (f_equal result (Hh HttpAbstractClient.__init__ eq_refl)).
Defined.

(** ** Connection *)

Lemma embeds_intro (pre needle post : string) :
  embeds needle (pre +:+ needle +:+ post).
Proof. exists pre, post. reflexivity. Qed.

Lemma append_empty_r (s : string) : s +:+ "" = s.
Proof.
  induction s as [| a s IH]; [reflexivity |].
  change (String a (s +:+ "") = String a s). rewrite IH. reflexivity.
Qed.

Lemma embeds_suffix (pre needle : string) : embeds needle (pre +:+ needle).
Proof. exists pre, "". rewrite append_empty_r. reflexivity. Qed.

Lemma append_assoc (a b c : string) : (a +:+ b) +:+ c = a +:+ b +:+ c.
Proof.
  induction a as [| x a IH]; [reflexivity |].
  change (String x ((a +:+ b) +:+ c) = String x (a +:+ b +:+ c)).
  rewrite IH. reflexivity.
Qed.

Lemma embeds_append (pre needle s : string) :
  embeds needle s -> embeds needle (pre +:+ s).
Proof.
  intros (before & after & ->). exists (pre +:+ before), after.
  symmetry. apply append_assoc.
Qed.

(** The wait times out: the loop that was started is stopped, the error is
    logged and raised. *)
Lemma connect_timeout (env : transport) (self : AbstractClient.t) :
  connect_raises env = None -> signalled env = false ->
  let reason := "Operation timed out connecting to IBM Watson IoT Platform: "
                +:+ AbstractClient.address self in
  AbstractClient.connect env self
  = Reply (AbstractClient.set_connectEvent false
             (AbstractClient.set_connectEvent false self))
      [EvLog Debug (Text (AbstractClient.connecting self));
       EvConnect (AbstractClient.address self) (AbstractClient.port self)
         (AbstractClient.keepAlive self);
       EvLoopStart; EvWait 30; EvLoopStop;
       EvLog Critical (Text reason)]
      (inl (ConnectionException reason)).
Proof.
  intros Hc Hs. unfold AbstractClient.connect, try_except,
    AbstractClient.logAndRaiseException.
  rewrite Hc, Hs. py_run. reflexivity.
Qed.

(** [self.client.connect] raises a socket error: the loop is stopped (it was
    never started), the error is logged and raised. *)
Lemma connect_socket_error (env : transport) (self : AbstractClient.t)
    (serr : exn) :
  connect_raises env = Some serr -> isinstance serr Cls.OSError = true ->
  let reason := "Failed to connect to IBM Watson IoT Platform: "
                +:+ AbstractClient.address self +:+ " - " +:+ exn_str serr in
  AbstractClient.connect env self
  = Reply (AbstractClient.set_connectEvent false self)
      [EvLog Debug (Text (AbstractClient.connecting self));
       EvConnect (AbstractClient.address self) (AbstractClient.port self)
         (AbstractClient.keepAlive self);
       EvLoopStop;
       EvLog Critical (Text reason)]
      (inl (ConnectionException reason)).
Proof.
  intros Hc Hs. unfold AbstractClient.connect, try_except,
    AbstractClient.logAndRaiseException.
  rewrite Hc. py_run. rewrite Hs. reflexivity.
Qed.

(** The condition is signalled in time: [connect] returns with the loop
    running. *)
Lemma connect_signalled (env : transport) (self : AbstractClient.t) :
  connect_raises env = None -> signalled env = true ->
  AbstractClient.connect env self
  = Reply (AbstractClient.set_connectEvent true
             (AbstractClient.set_connectEvent false self))
      [EvLog Debug (Text (AbstractClient.connecting self));
       EvConnect (AbstractClient.address self) (AbstractClient.port self)
         (AbstractClient.keepAlive self);
       EvLoopStart; EvWait 30]
      (inr tt).
Proof.
  intros Hc Hs. unfold AbstractClient.connect, try_except.
  rewrite Hc, Hs. py_run. reflexivity.
Qed.

(** C4: when the wait of 30 times out, and when [self.client.connect] raises
    a socket error, [connect] raises a [ConnectionException] whose reason
    embeds the address (and, for the socket error, its text); the last call
    into the transport before that is [loop_stop], followed only by the
    critical log record of the reason. *)
Theorem connect_failure_stops_loop (env : transport) (self : AbstractClient.t) :
  (connect_raises env = None /\ signalled env = false) \/
  (exists serr : exn,
     connect_raises env = Some serr /\ isinstance serr Cls.OSError = true) ->
  let r := AbstractClient.connect env self in
  exists (reason : string) (before : list event),
    result r = inl (ConnectionException reason) /\
    embeds (AbstractClient.address self) reason /\
    (forall serr : exn,
       connect_raises env = Some serr -> embeds (exn_str serr) reason) /\
    emitted r = before ++ [EvLoopStop; EvLog Critical (Text reason)] /\
    (EvLoopStop ∉ before) /\
    (EvLoopStart ∈ before <-> connect_raises env = None).
Proof.
  intros [[Hc Hs] | (serr & Hc & Hs)] r; subst r.
  - rewrite (connect_timeout env self Hc Hs).
    eexists. eexists. cbn [result emitted].
    split; [reflexivity |]. split; [apply embeds_suffix |].
    split; [intros serr Hserr; congruence |].
    split; [instantiate (1 := [_; _; _; _]); reflexivity |].
    split.
    + not_in_list.
    + split; [intros _; exact Hc |]. intros _. do 2 right. left.
  - rewrite (connect_socket_error env self serr Hc Hs).
    eexists. eexists. cbn [result emitted].
    split; [reflexivity |]. split; [apply embeds_intro |].
    split.
    + intros serr' Hserr. replace serr' with serr by congruence.
      do 2 apply embeds_append. apply embeds_suffix.
    + split; [instantiate (1 := [_; _]); reflexivity |].
      split.
      * not_in_list.
      * split; [not_in_list | intros H; congruence].
Qed.

Lemma connect_failure_stops_loop_witness :
  let refused := Transport (Some (socket_error "[Errno 111] Connection refused"))
                   false in
  let silent := Transport None false in
  isinstance (socket_error "[Errno 111] Connection refused") Cls.OSError = true
  /\ (exists (reason : string) (before : list event),
        result (AbstractClient.connect refused sample_client)
        = inl (ConnectionException reason) /\
        embeds "org1.messaging.x.com" reason /\
        (forall serr : exn,
           connect_raises refused = Some serr -> embeds (exn_str serr) reason) /\
        emitted (AbstractClient.connect refused sample_client)
        = before ++ [EvLoopStop; EvLog Critical (Text reason)] /\
        (EvLoopStop ∉ before) /\
        (EvLoopStart ∈ before <-> connect_raises refused = None))
  /\ (exists (reason : string) (before : list event),
        result (AbstractClient.connect silent sample_client)
        = inl (ConnectionException reason) /\
        embeds "org1.messaging.x.com" reason /\
        (forall serr : exn,
           connect_raises silent = Some serr -> embeds (exn_str serr) reason) /\
        emitted (AbstractClient.connect silent sample_client)
        = before ++ [EvLoopStop; EvLog Critical (Text reason)] /\
        (EvLoopStop ∉ before) /\
        (EvLoopStart ∈ before <-> connect_raises silent = None)).
Proof.
  intros refused silent. split; [reflexivity |]. split.
  - exact (connect_failure_stops_loop refused sample_client
             (or_intror (ex_intro _ (socket_error "[Errno 111] Connection refused")
                           (conj eq_refl eq_refl)))).
  - exact (connect_failure_stops_loop silent sample_client
             (or_introl (conj eq_refl eq_refl))).
Defined.

(** C8: [disconnect] always returns, and what it does to the transport is
    [disconnect] first and [loop_stop] second, on every client state; the
    info record follows. *)
Theorem disconnect_then_loop_stop (self : AbstractClient.t) :
  let r := AbstractClient.disconnect self in
  result r = inr tt /\
  final r = self /\
  emitted r
  = [EvDisconnect; EvLoopStop;
     EvLog Info (Text "Closed connection to the IBM Watson IoT Platform")] /\
  (exists i j : nat,
     emitted r !! i = Some EvDisconnect /\
     emitted r !! j = Some EvLoopStop /\
     (i < j)%nat /\
     forall k : nat, emitted r !! k = Some EvDisconnect -> (k < j)%nat).
Proof.
  cbn. repeat split. exists 0%nat, 1%nat. repeat split; [lia |].
  intros [| [| [| k]]] Hk; cbn in Hk; try discriminate; lia.
Qed.

(** ** Disconnect callback *)

Lemma on_disconnect_run (rc : Z) (self : AbstractClient.t) :
  AbstractClient.on_disconnect rc self
  = Reply self
      [EvLog (if bool_decide (rc = 1) then Error else Info)
         (Text (if bool_decide (rc = 1)
                then "Unexpected disconnect from the IBM Watson IoT Platform"
                else "Disconnected from the IBM Watson IoT Platform"));
       EvLog Debug (StatsPublished (AbstractClient.messages self));
       EvLog Debug (StatsReceived (AbstractClient.recv self))]
      (inr tt).
Proof.
  unfold AbstractClient.on_disconnect, AbstractClient.stats. py_run.
  case_bool_decide; reflexivity.
Qed.

(** With the condition set and reason code 2, the callback leaves the
    condition set and logs at info level, not at error level. *)
Lemma on_disconnect_rc2_keeps_event_and_logs_info :
  let r := AbstractClient.on_disconnect 2 connected_client in
  AbstractClient.connectEvent connected_client = true /\
  AbstractClient.connectEvent (final r) = true /\
  2 <> 0 /\
  logged Error (emitted r) = [] /\
  logged Info (emitted r)
  = [Text "Disconnected from the IBM Watson IoT Platform"].
Proof. cbn. repeat split. lia. Qed.

(** C3, amended: [on_disconnect] returns on every reason code and leaves the
    client, the connected-condition included, as it found it; it logs one
    record at error level exactly when the reason code is 1 and one at info
    level for every other code, then the two debug records of [stats]. *)
Theorem on_disconnect_logs (rc : Z) (self : AbstractClient.t) :
  let r := AbstractClient.on_disconnect rc self in
  result r = inr tt /\
  final r = self /\
  AbstractClient.connectEvent (final r) = AbstractClient.connectEvent self /\
  (logged Error (emitted r)
   = [Text "Unexpected disconnect from the IBM Watson IoT Platform"]
   /\ logged Info (emitted r) = [] <-> rc = 1) /\
  (logged Info (emitted r)
   = [Text "Disconnected from the IBM Watson IoT Platform"]
   /\ logged Error (emitted r) = [] <-> rc <> 1) /\
  logged Debug (emitted r)
  = [StatsPublished (AbstractClient.messages self);
     StatsReceived (AbstractClient.recv self)] /\
  length (emitted r) = 3%nat /\
  (exists (lvl : level) (msg : logmsg),
     emitted r
     = [EvLog lvl msg;
        EvLog Debug (StatsPublished (AbstractClient.messages self));
        EvLog Debug (StatsReceived (AbstractClient.recv self))]).
Proof.
  cbv zeta. rewrite on_disconnect_run. cbn [result final emitted].
  split; [reflexivity |]. split; [reflexivity |]. split; [reflexivity |].
  case_bool_decide as Hrc; cbn; repeat split; try tauto; try discriminate;
    try (intros [H _]; discriminate H); eauto.
Qed.

(** ** Publish acknowledgements *)

(** No entry under [mid]: the counter goes up and the sentinel is stored;
    nothing is called. *)
Lemma on_publish_absent (mid : Z) (raises : option exn)
    (self : AbstractClient.t) :
  AbstractClient._onPublishCallbacks self !! mid = None ->
  AbstractClient.on_publish mid raises self
  = Reply (AbstractClient.set__onPublishCallbacks
             (<[mid := None]> (AbstractClient._onPublishCallbacks self))
             (AbstractClient.set_messages
                (AbstractClient.messages self + 1) self))
      [] (inr tt).
Proof.
  intros H. unfold AbstractClient.on_publish. py_run. rewrite H. reflexivity.
Qed.

(** A callable under [mid]: the counter goes up, the entry goes and the
    callable is called; what the callable raises leaves [on_publish]. *)
Lemma on_publish_callback (mid : Z) (f : pyref) (raises : option exn)
    (self : AbstractClient.t) :
  AbstractClient._onPublishCallbacks self !! mid = Some (Some f) ->
  AbstractClient.on_publish mid raises self
  = Reply (AbstractClient.set__onPublishCallbacks
             (delete mid (AbstractClient._onPublishCallbacks self))
             (AbstractClient.set_messages
                (AbstractClient.messages self + 1) self))
      [EvInvoke f]
      (match raises with
       | Some e => inl e
       | None => inr tt
       end).
Proof.
  intros H. unfold AbstractClient.on_publish. py_run. rewrite H.
  destruct raises; reflexivity.
Qed.

(** The sentinel under [mid]: the counter goes up, the entry goes, and the
    call of [None] raises. *)
Lemma on_publish_sentinel (mid : Z) (raises : option exn)
    (self : AbstractClient.t) :
  AbstractClient._onPublishCallbacks self !! mid = Some None ->
  AbstractClient.on_publish mid raises self
  = Reply (AbstractClient.set__onPublishCallbacks
             (delete mid (AbstractClient._onPublishCallbacks self))
             (AbstractClient.set_messages
                (AbstractClient.messages self + 1) self))
      [] (inl (TypeError "'NoneType' object is not callable")).
Proof.
  intros H. unfold AbstractClient.on_publish. py_run. rewrite H. reflexivity.
Qed.




(** C7: [on_publish] at the input where it departs from the rule "invoke a
    registered callback, otherwise store the sentinel".  Identifier 7 has
    been acknowledged once with no registration, so its slot holds the
    [None] sentinel and no callback.  The second acknowledgement counts the
    message, stores no sentinel but removes the one there, calls it and
    raises the [TypeError] of calling [None]; the slot is left empty. *)
Theorem on_publish_twice_removes_sentinel :
  let r := AbstractClient.on_publish 7 None acknowledged_client in
  AbstractClient._onPublishCallbacks acknowledged_client !! 7 = Some None /\
  AbstractClient.messages (final r)
  = AbstractClient.messages acknowledged_client + 1 /\
  AbstractClient._onPublishCallbacks (final r) !! 7 = None /\
  AbstractClient._onPublishCallbacks (final r) !! 7 <> Some None /\
  emitted r = [] /\
  result r = inl (TypeError "'NoneType' object is not callable").
Proof. cbn. repeat split. discriminate. Qed.

(** What one call of [on_publish] does, by what the slot of [mid] holds: the
    counter always goes up by one and nothing but the counter and that slot
    changes; a stored callable is removed and called once, and what it
    raises leaves [on_publish]; an empty slot receives the sentinel; a
    stored sentinel is removed and called, which raises. *)
Lemma on_publish_step (mid : Z) (raises : option exn)
    (self : AbstractClient.t) :
  let r := AbstractClient.on_publish mid raises self in
  let callbacks := AbstractClient._onPublishCallbacks self in
  AbstractClient.messages (final r) = AbstractClient.messages self + 1 /\
  final r
  = AbstractClient.set__onPublishCallbacks
      (AbstractClient._onPublishCallbacks (final r))
      (AbstractClient.set_messages (AbstractClient.messages self + 1) self) /\
  match callbacks !! mid with
  | Some (Some f) =>
      AbstractClient._onPublishCallbacks (final r) = delete mid callbacks /\
      emitted r = [EvInvoke f] /\
      result r = match raises with
                 | Some e => inl e
                 | None => inr tt
                 end
  | None =>
      AbstractClient._onPublishCallbacks (final r) = <[mid := None]> callbacks /\
      emitted r = [] /\ result r = inr tt
  | Some None =>
      AbstractClient._onPublishCallbacks (final r) = delete mid callbacks /\
      emitted r = [] /\
      result r = inl (TypeError "'NoneType' object is not callable")
  end.
Proof.
  cbv zeta.
  destruct (AbstractClient._onPublishCallbacks self !! mid) as [[f |] |] eqn:H.
  - rewrite (on_publish_callback mid f raises self H). cbn. auto.
  - rewrite (on_publish_sentinel mid raises self H). cbn. auto.
  - rewrite (on_publish_absent mid raises self H). cbn. auto.
Qed.

(** *** Runs of the tracker *)












(** The two orderings on the sample client, event by event. *)
Example register_then_acknowledge :
  run [Register 7 1%nat None; Ack 7 None] sample_client
  = (AbstractClient.set_messages 1 sample_client, [EvInvoke 1%nat]).
Proof. reflexivity. Qed.

Example acknowledge_then_register :
  run [Ack 7 None; Register 7 1%nat None] sample_client
  = (AbstractClient.set_messages 1 sample_client, [EvInvoke 1%nat]).
Proof. reflexivity. Qed.

(** ** Codec table: registration and lookup *)

Lemma register_all_app {St} (set : string -> pyref -> Py St unit)
    (regs regs' : list (string * pyref)) :
  forall self : St,
  register_all set (regs ++ regs') self
  = register_all set regs' (register_all set regs self).
Proof.
  induction regs as [| [k m] rest IH]; intros self; [reflexivity |].
  cbn [app register_all]. apply IH.
Qed.

Lemma mqtt_register_all_other (regs : list (string * pyref)) (fmt : string) :
  forall self : AbstractClient.t,
  fmt ∉ regs.*1 ->
  AbstractClient._messageEncoderModules
    (register_all AbstractClient.setMessageEncoderModule regs self) !! fmt
  = AbstractClient._messageEncoderModules self !! fmt.
Proof.
  induction regs as [| [k m] rest IH]; intros self Hnot; [reflexivity |].
  cbn [register_all]. rewrite IH.
  - rewrite mqtt_set_lookup. case_decide as Hk; [| reflexivity].
    exfalso. apply Hnot. subst k. cbn. left.
  - intros Hin. apply Hnot. cbn. right. exact Hin.
Qed.

Lemma http_register_all_other (regs : list (string * pyref)) (fmt : string) :
  forall self : HttpAbstractClient.t,
  fmt ∉ regs.*1 ->
  HttpAbstractClient._messageEncoderModules
    (register_all HttpAbstractClient.setMessageEncoderModule regs self) !! fmt
  = HttpAbstractClient._messageEncoderModules self !! fmt.
Proof.
  induction regs as [| [k m] rest IH]; intros self Hnot; [reflexivity |].
  cbn [register_all]. rewrite IH.
  - rewrite http_set_lookup. case_decide as Hk; [| reflexivity].
    exfalso. apply Hnot. subst k. cbn. left.
  - intros Hin. apply Hnot. cbn. right. exact Hin.
Qed.

Lemma mqtt_get_present (self : AbstractClient.t) (fmt : string) (m : pyref) :
  AbstractClient._messageEncoderModules self !! fmt = Some m ->
  AbstractClient.getMessageEncoderModule fmt self = Reply self [] (inr m).
Proof.
  intros H. unfold AbstractClient.getMessageEncoderModule. py_run.
  rewrite H. reflexivity.
Qed.

Lemma http_get_present (self : HttpAbstractClient.t) (fmt : string) (m : pyref) :
  HttpAbstractClient._messageEncoderModules self !! fmt = Some m ->
  HttpAbstractClient.getMessageEncoderModule fmt self = Reply self [] (inr m).
Proof.
  intros H. unfold HttpAbstractClient.getMessageEncoderModule. py_run.
  rewrite H. reflexivity.
Qed.

(** X1: on both clients, after any series of [setMessageEncoderModule]
    calls, [getMessageEncoderModule] of a format returns the module of the
    last call that named this format: earlier registrations of the format
    are overwritten, registrations of other formats made before or after do
    not interfere, and the lookup changes nothing and logs nothing. *)
Theorem getMessageEncoderModule_last_set
    (before after : list (string * pyref)) (fmt : string) (m : pyref) :
  fmt ∉ after.*1 ->
  (forall self : AbstractClient.t,
     let self' := register_all AbstractClient.setMessageEncoderModule
                    (before ++ (fmt, m) :: after) self in
     AbstractClient.getMessageEncoderModule fmt self'
     = Reply self' [] (inr m)) /\
  (forall self : HttpAbstractClient.t,
     let self' := register_all HttpAbstractClient.setMessageEncoderModule
                    (before ++ (fmt, m) :: after) self in
     HttpAbstractClient.getMessageEncoderModule fmt self'
     = Reply self' [] (inr m)).
Proof.
  intros Hnot. split; intros self self'; subst self'.
  - apply mqtt_get_present. rewrite register_all_app. cbn [register_all].
    rewrite (mqtt_register_all_other after fmt _ Hnot), mqtt_set_lookup.
    case_decide; [reflexivity | contradiction].
  - apply http_get_present. rewrite register_all_app. cbn [register_all].
    rewrite (http_register_all_other after fmt _ Hnot), http_set_lookup.
    case_decide; [reflexivity | contradiction].
Qed.

Lemma getMessageEncoderModule_last_set_witness :
  ("json" ∉ [("xml", 3%nat)].*1) /\
  result (AbstractClient.getMessageEncoderModule "json"
            (register_all AbstractClient.setMessageEncoderModule
               ([("json", 1%nat); ("text", 2%nat)]
                ++ ("json", 5%nat) :: [("xml", 3%nat)]) sample_client))
  = inr 5%nat /\
  result (HttpAbstractClient.getMessageEncoderModule "json"
            (register_all HttpAbstractClient.setMessageEncoderModule
               ([("json", 1%nat); ("text", 2%nat)]
                ++ ("json", 5%nat) :: [("xml", 3%nat)])
               HttpAbstractClient.__init__))
  = inr 5%nat.
Proof.
  assert (Hnot : "json" ∉ [("xml", 3%nat)].*1) by (cbn; not_in_list).
  destruct (getMessageEncoderModule_last_set
              [("json", 1%nat); ("text", 2%nat)] [("xml", 3%nat)]
              "json" 5%nat Hnot) as [Hm Hh].
  split; [exact Hnot |]. split.
  - exact (f_equal result (Hm sample_client)).
  - exact (f_equal result (Hh HttpAbstractClient.__init__)).
Defined.

(** ** Connection: the other outcomes *)

(** [self.client.connect] raises something that is not a socket error: the
    [except] clause lets it pass. *)
Lemma connect_other_error (env : transport) (self : AbstractClient.t)
    (e : exn) :
  connect_raises env = Some e -> isinstance e Cls.OSError = false ->
  AbstractClient.connect env self
  = Reply (AbstractClient.set_connectEvent false self)
      [EvLog Debug (Text (AbstractClient.connecting self));
       EvConnect (AbstractClient.address self) (AbstractClient.port self)
         (AbstractClient.keepAlive self)]
      (inl e).
Proof.
  intros Hc Hs. unfold AbstractClient.connect, try_except,
    AbstractClient.logAndRaiseException.
  rewrite Hc. py_run. rewrite Hs. reflexivity.
Qed.

Lemma set_connectEvent_twice (b b' : bool) (self : AbstractClient.t) :
  AbstractClient.set_connectEvent b (AbstractClient.set_connectEvent b' self)
  = AbstractClient.set_connectEvent b self.
Proof. reflexivity. Qed.

(** The four ways [connect] can go, by what the transport does. *)
Lemma connect_cases (env : transport) (self : AbstractClient.t) :
  (connect_raises env = None /\ signalled env = true) \/
  (connect_raises env = None /\ signalled env = false) \/
  (exists e : exn,
     connect_raises env = Some e /\ isinstance e Cls.OSError = true) \/
  (exists e : exn,
     connect_raises env = Some e /\ isinstance e Cls.OSError = false).
Proof.
  destruct (connect_raises env) as [e |] eqn:Hc.
  - destruct (isinstance e Cls.OSError) eqn:Hs; eauto 6.
  - destruct (signalled env); auto.
Qed.

(** X2: [connect] returns normally exactly when [self.client.connect]
    returned and the connected-condition was set within the wait.  The
    condition is set afterwards exactly when [connect] returned normally (it
    is cleared on every failure), a normal return leaves the network loop
    running, and nothing but the condition changes in the client. *)
Theorem connect_returns_iff (env : transport) (self : AbstractClient.t)
    (running : bool) :
  let r := AbstractClient.connect env self in
  (result r = inr tt <-> connect_raises env = None /\ signalled env = true) /\
  (AbstractClient.connectEvent (final r) = true <-> result r = inr tt) /\
  (result r = inr tt -> loop_running running (emitted r) = true) /\
  final r
  = AbstractClient.set_connectEvent (AbstractClient.connectEvent (final r)) self.
Proof.
  cbv zeta.
  destruct (connect_cases env self)
    as [[Hc Hs] | [[Hc Hs] | [(e & Hc & Hs) | (e & Hc & Hs)]]].
  - rewrite (connect_signalled env self Hc Hs). cbn. repeat split; auto.
  - rewrite (connect_timeout env self Hc Hs). cbn.
    repeat split; try discriminate; try congruence.
    intros [_ H]. congruence.
  - rewrite (connect_socket_error env self e Hc Hs). cbn.
    repeat split; try discriminate; try congruence.
    intros [H _]. congruence.
  - rewrite (connect_other_error env self e Hc Hs). cbn.
    repeat split; try discriminate; try congruence.
    intros [H _]. congruence.
Qed.

Lemma connect_returns_iff_witness :
  let env := Transport None true in
  let r := AbstractClient.connect env sample_client in
  result r = inr tt /\
  AbstractClient.connectEvent (final r) = true /\
  loop_running false (emitted r) = true.
Proof.
  intros env r.
  destruct (connect_returns_iff env sample_client false)
    as (Hret & Hflag & Hloop & _).
  assert (Hr : result r = inr tt) by (apply Hret; split; reflexivity).
  split; [exact Hr |]. split; [apply Hflag; exact Hr | apply Hloop; exact Hr].
Defined.

(** X3: when [self.client.connect] raises an exception that is not a socket
    error, [connect] lets that very exception through: it is not wrapped in
    a [ConnectionException], nothing is logged at critical level, the loop
    is neither started nor stopped (it stays as it was), and the
    connected-condition has been cleared. *)
Theorem connect_other_error_propagates (env : transport)
    (self : AbstractClient.t) (e : exn) (running : bool) :
  connect_raises env = Some e ->
  isinstance e Cls.OSError = false ->
  let r := AbstractClient.connect env self in
  result r = inl e /\
  logged Critical (emitted r) = [] /\
  (EvLoopStart ∉ emitted r) /\
  (EvLoopStop ∉ emitted r) /\
  loop_running running (emitted r) = running /\
  AbstractClient.connectEvent (final r) = false.
Proof.
  intros Hc Hs r. subst r. rewrite (connect_other_error env self e Hc Hs).
  cbn. repeat split; not_in_list.
Qed.

Lemma connect_other_error_propagates_witness :
  let env := Transport (Some (TypeError "port must be an integer")) true in
  let r := AbstractClient.connect env connected_client in
  isinstance (TypeError "port must be an integer") Cls.OSError = false /\
  result r = inl (TypeError "port must be an integer") /\
  loop_running true (emitted r) = true /\
  AbstractClient.connectEvent (final r) = false.
Proof.
  intros env r.
  destruct (connect_other_error_propagates env connected_client
              (TypeError "port must be an integer") true eq_refl eq_refl)
    as (Hr & _ & _ & _ & Hloop & Hflag).
  split; [reflexivity |]. split; [exact Hr |]. split; [exact Hloop | exact Hflag].
Defined.

(** ** Which call raises what *)

(** X4: the exceptions that leave the methods of the MQTT client.
    [on_publish] raises the [TypeError] of calling [None] when the slot
    holds the sentinel, or passes on what the stored callable raised, and
    nothing else; [getMessageEncoderModule] raises only the [KeyError] of
    the format, and only when it is unregistered; [connect] raises a
    [ConnectionException] whose reason embeds the address, or passes on the
    non-socket exception that [self.client.connect] raised; [disconnect],
    [on_log], [on_disconnect], [stats], the keep-alive accessors and
    [setMessageEncoderModule] never raise. *)
Theorem raised_exceptions (m : method) (self : AbstractClient.t) (e : exn) :
  result (invoke m self) = inl e ->
  match m with
  | OnPublish mid raises =>
      (e = TypeError "'NoneType' object is not callable" /\
       AbstractClient._onPublishCallbacks self !! mid = Some None) \/
      (raises = Some e /\
       exists f : pyref,
         AbstractClient._onPublishCallbacks self !! mid = Some (Some f) /\
         emitted (invoke m self) = [EvInvoke f])
  | GetMessageEncoderModule fmt =>
      e = KeyError fmt /\
      AbstractClient._messageEncoderModules self !! fmt = None
  | Connect env =>
      (exists reason : string,
         e = ConnectionException reason /\
         embeds (AbstractClient.address self) reason) \/
      (connect_raises env = Some e /\ isinstance e Cls.OSError = false)
  | _ => False
  end.
Proof.
  destruct m as [env | | s | rc | mid raises | | n | | fmt module | fmt];
    cbn [invoke]; intros Hr.
  - destruct (connect_cases env self)
      as [[Hc Hs] | [[Hc Hs] | [(e' & Hc & Hs) | (e' & Hc & Hs)]]].
    + rewrite (connect_signalled env self Hc Hs) in Hr. discriminate Hr.
    + rewrite (connect_timeout env self Hc Hs) in Hr. cbn in Hr.
      injection Hr as <-. left. eexists.
      split; [reflexivity | apply embeds_suffix].
    + rewrite (connect_socket_error env self e' Hc Hs) in Hr. cbn in Hr.
      injection Hr as <-. left. eexists.
      split; [reflexivity | apply embeds_intro].
    + rewrite (connect_other_error env self e' Hc Hs) in Hr. cbn in Hr.
      right. split; congruence.
  - discriminate Hr.
  - discriminate Hr.
  - rewrite on_disconnect_run in Hr. discriminate Hr.
  - destruct (AbstractClient._onPublishCallbacks self !! mid)
      as [[f |] |] eqn:Hslot.
    + rewrite (on_publish_callback mid f raises self Hslot) in Hr |- *.
      cbn [result emitted] in Hr |- *.
      destruct raises as [e' |]; [| discriminate Hr].
      right. split; [congruence |]. exists f. split; reflexivity.
    + rewrite (on_publish_sentinel mid raises self Hslot) in Hr. cbn in Hr.
      left. split; congruence.
    + rewrite (on_publish_absent mid raises self Hslot) in Hr.
      discriminate Hr.
  - discriminate Hr.
  - discriminate Hr.
  - discriminate Hr.
  - discriminate Hr.
  - unfold mbind, Py_bind in Hr.
    destruct (AbstractClient._messageEncoderModules self !! fmt)
      as [module |] eqn:Hfmt.
    + rewrite (mqtt_get_present self fmt module Hfmt) in Hr. discriminate Hr.
    + rewrite (mqtt_get_absent self fmt Hfmt) in Hr. cbn in Hr.
      split; congruence.
Qed.

Lemma raised_exceptions_witness :
  let registered :=
    AbstractClient.set__onPublishCallbacks {[7 := Some 1%nat]} sample_client in
  result (invoke (OnPublish 7 (Some (KeyError "payload"))) registered)
  = inl (KeyError "payload") /\
  AbstractClient._onPublishCallbacks registered !! 7 = Some (Some 1%nat) /\
  result (invoke (OnPublish 7 None) acknowledged_client)
  = inl (TypeError "'NoneType' object is not callable") /\
  AbstractClient._onPublishCallbacks acknowledged_client !! 7 = Some None.
Proof.
  intros registered.
  assert (H1 : result (invoke (OnPublish 7 (Some (KeyError "payload")))
                         registered) = inl (KeyError "payload"))
    by reflexivity.
  assert (H2 : result (invoke (OnPublish 7 None) acknowledged_client)
               = inl (TypeError "'NoneType' object is not callable"))
    by reflexivity.
  split; [exact H1 |]. split.
  - destruct (raised_exceptions _ _ _ H1) as [[H _] | (_ & f & Hslot & _)];
      [discriminate H |].
    cbn in Hslot |- *. exact eq_refl.
  - split; [exact H2 |].
    destruct (raised_exceptions _ _ _ H2) as [[_ H] | (H & _)];
      [exact H | discriminate H].
Defined.

(** ** Sessions: what each method changes *)

Lemma session_cons (m : method) (rest : list method) (self : AbstractClient.t) :
  session (m :: rest) self
  = ((session rest (final (invoke m self))).1,
     emitted (invoke m self) ++ (session rest (final (invoke m self))).2).
Proof.
  cbn [session]. destruct (session rest (final (invoke m self))). reflexivity.
Qed.

Lemma session_app (ms ms' : list method) :
  forall self : AbstractClient.t,
  session (ms ++ ms') self
  = ((session ms' (session ms self).1).1,
     (session ms self).2 ++ (session ms' (session ms self).1).2).
Proof.
  induction ms as [| m ms IH]; intros self.
  - cbn. destruct (session ms' self). reflexivity.
  - rewrite <- app_comm_cons, !session_cons, IH. cbn [fst snd].
    rewrite app_assoc. reflexivity.
Qed.

(** The state a call leaves, method by method. *)
Lemma invoke_final (m : method) (self : AbstractClient.t) :
  final (invoke m self)
  = match m with
    | Connect env =>
        AbstractClient.set_connectEvent
          (match connect_raises env with
           | None => signalled env
           | Some _ => false
           end) self
    | OnPublish mid _ =>
        AbstractClient.set__onPublishCallbacks
          (match AbstractClient._onPublishCallbacks self !! mid with
           | Some _ => delete mid (AbstractClient._onPublishCallbacks self)
           | None => <[mid := None]> (AbstractClient._onPublishCallbacks self)
           end)
          (AbstractClient.set_messages (AbstractClient.messages self + 1) self)
    | SetKeepAliveInterval n => AbstractClient.set_keepAlive n self
    | SetMessageEncoderModule fmt module =>
        AbstractClient.set__messageEncoderModules
          (<[fmt := module]> (AbstractClient._messageEncoderModules self)) self
    | _ => self
    end.
Proof.
  destruct m as [env | | s | rc | mid raises | | n | | fmt module | fmt];
    cbn [invoke]; try reflexivity.
  - destruct (connect_cases env self)
      as [[Hc Hs] | [[Hc Hs] | [(e & Hc & Hs) | (e & Hc & Hs)]]].
    + rewrite (connect_signalled env self Hc Hs), Hc, Hs. reflexivity.
    + rewrite (connect_timeout env self Hc Hs), Hc, Hs. reflexivity.
    + rewrite (connect_socket_error env self e Hc Hs), Hc. reflexivity.
    + rewrite (connect_other_error env self e Hc Hs), Hc. reflexivity.
  - rewrite on_disconnect_run. reflexivity.
  - destruct (AbstractClient._onPublishCallbacks self !! mid)
      as [[f |] |] eqn:Hslot.
    + rewrite (on_publish_callback mid f raises self Hslot). reflexivity.
    + rewrite (on_publish_sentinel mid raises self Hslot). reflexivity.
    + rewrite (on_publish_absent mid raises self Hslot). reflexivity.
  - unfold mbind, Py_bind.
    destruct (AbstractClient._messageEncoderModules self !! fmt)
      as [module |] eqn:Hfmt.
    + rewrite (mqtt_get_present self fmt module Hfmt). reflexivity.
    + rewrite (mqtt_get_absent self fmt Hfmt). reflexivity.
Qed.

Lemma invoke_connectEvent (m : method) (self : AbstractClient.t) :
  is_connect m = false ->
  AbstractClient.connectEvent (final (invoke m self))
  = AbstractClient.connectEvent self.
Proof. intros H. rewrite invoke_final. destruct m; try reflexivity. discriminate H. Qed.

Lemma invoke_messages (m : method) (self : AbstractClient.t) :
  AbstractClient.messages (final (invoke m self))
  = AbstractClient.messages self + (if is_on_publish m then 1 else 0).
Proof. rewrite invoke_final. destruct m; cbn; lia. Qed.

Lemma invoke_config (m : method) (self : AbstractClient.t) :
  let self' := final (invoke m self) in
  AbstractClient.address self' = AbstractClient.address self /\
  AbstractClient.port self' = AbstractClient.port self /\
  AbstractClient.clientId self' = AbstractClient.clientId self /\
  AbstractClient.organization self' = AbstractClient.organization self /\
  AbstractClient.username self' = AbstractClient.username self /\
  AbstractClient.password self' = AbstractClient.password self /\
  AbstractClient.recv self' = AbstractClient.recv self.
Proof. cbv zeta. rewrite invoke_final. destruct m; cbn; auto 10. Qed.

Lemma invoke_keepAlive (m : method) (self : AbstractClient.t) :
  is_set_keepalive m = false ->
  AbstractClient.keepAlive (final (invoke m self))
  = AbstractClient.keepAlive self.
Proof. intros H. rewrite invoke_final. destruct m; try reflexivity. discriminate H. Qed.

Lemma invoke_modules (fmt : string) (m : method) (self : AbstractClient.t) :
  sets_module fmt m = false ->
  AbstractClient._messageEncoderModules (final (invoke m self)) !! fmt
  = AbstractClient._messageEncoderModules self !! fmt.
Proof.
  intros H. rewrite invoke_final. destruct m; try reflexivity.
  cbn in *. apply String.eqb_neq in H. apply lookup_insert_ne. exact H.
Qed.

Lemma invoke_callbacks (mid : Z) (m : method) (self : AbstractClient.t) :
  acknowledges mid m = false ->
  AbstractClient._onPublishCallbacks (final (invoke m self)) !! mid
  = AbstractClient._onPublishCallbacks self !! mid.
Proof.
  intros H. rewrite invoke_final.
  destruct m as [env | | s | rc | mid' raises | | n | | fmt module | fmt];
    try reflexivity.
  cbn in *. apply bool_decide_eq_false in H.
  destruct (AbstractClient._onPublishCallbacks self !! mid');
    [apply lookup_delete_ne | apply lookup_insert_ne]; exact H.
Qed.

(** An invariant of single calls is an invariant of sessions. *)
Lemma session_invariant (keep : method -> bool)
    (R : AbstractClient.t -> AbstractClient.t -> Prop) :
  (forall self, R self self) ->
  (forall a b c, R a b -> R b c -> R a c) ->
  (forall m self, keep m = true -> R self (final (invoke m self))) ->
  forall (ms : list method) (self : AbstractClient.t),
  forallb keep ms = true -> R self (session ms self).1.
Proof.
  intros Hrefl Htrans Hstep ms.
  induction ms as [| m ms IH]; intros self Hms; [apply Hrefl |].
  cbn [forallb] in Hms. apply andb_true_iff in Hms as [Hm Hms].
  rewrite session_cons. cbn [fst].
  eapply Htrans; [apply Hstep; exact Hm | apply IH; exact Hms].
Qed.

(** X5: only [connect] changes the connected-condition.  No series of
    [disconnect], [on_disconnect], [on_publish], [on_log], [stats],
    keep-alive and codec calls changes it; so after any session whose last
    [connect] is followed by such calls only, the condition is set exactly
    when that [connect] had returned normally, a later [disconnect] or
    unexpected disconnect notwithstanding. *)
Theorem connectEvent_only_changed_by_connect (later : list method) :
  forallb (fun m => negb (is_connect m)) later = true ->
  (forall self : AbstractClient.t,
     AbstractClient.connectEvent (session later self).1
     = AbstractClient.connectEvent self) /\
  (forall (earlier : list method) (env : transport) (self : AbstractClient.t),
     AbstractClient.connectEvent
       (session (earlier ++ Connect env :: later) self).1 = true
     <-> connect_raises env = None /\ signalled env = true).
Proof.
  intros Hlater.
  assert (Hkeep : forall self : AbstractClient.t,
             AbstractClient.connectEvent (session later self).1
             = AbstractClient.connectEvent self).
  { intros self. symmetry.
    apply (session_invariant (fun m => negb (is_connect m))
             (fun a b => AbstractClient.connectEvent a
                         = AbstractClient.connectEvent b));
      [reflexivity | intros a b c; congruence | | exact Hlater].
    intros m s Hm. symmetry. apply invoke_connectEvent.
    apply negb_true_iff. exact Hm. }
  split; [exact Hkeep |].
  intros earlier env self.
  rewrite session_app, session_cons. cbn [fst]. rewrite Hkeep, invoke_final.
  cbn [AbstractClient.connectEvent AbstractClient.set_connectEvent].
  destruct (connect_raises env) as [e |].
  - split; [discriminate | intros [H _]; discriminate H].
  - split; [intros H; split; [reflexivity | exact H] | intros [_ H]; exact H].
Qed.

Lemma connectEvent_only_changed_by_connect_witness :
  let later := [OnPublish 7 None; Disconnect; OnDisconnect 0; OnDisconnect 1] in
  forallb (fun m => negb (is_connect m)) later = true /\
  AbstractClient.connectEvent
    (session ([SetKeepAliveInterval 30] ++ Connect (Transport None true) :: later)
       sample_client).1 = true.
Proof.
  intros later. split; [reflexivity |].
  apply (proj2 (connectEvent_only_changed_by_connect later eq_refl)
           [SetKeepAliveInterval 30] (Transport None true) sample_client).
  split; reflexivity.
Defined.

(** X6: [messages] counts the calls of [on_publish]: after any session it
    has grown by exactly the number of [on_publish] calls in it, those that
    raised included, and no call changes [recv]; this is what [stats], and
    so [on_disconnect], then reports. *)
Theorem messages_counts_on_publish (ms : list method) (rc : Z)
    (self : AbstractClient.t) :
  let self' := (session ms self).1 in
  let n := AbstractClient.messages self
           + Z.of_nat (length (List.filter is_on_publish ms)) in
  AbstractClient.messages self' = n /\
  AbstractClient.recv self' = AbstractClient.recv self /\
  logged Debug (emitted (AbstractClient.on_disconnect rc self'))
  = [StatsPublished n; StatsReceived (AbstractClient.recv self)].
Proof.
  cbv zeta.
  assert (H : AbstractClient.messages (session ms self).1
              = AbstractClient.messages self
                + Z.of_nat (length (List.filter is_on_publish ms))
              /\ AbstractClient.recv (session ms self).1
                 = AbstractClient.recv self).
  { revert self. induction ms as [| m ms IH]; intros self.
    - cbn. split; [lia | reflexivity].
    - rewrite session_cons. cbn [fst].
      destruct (IH (final (invoke m self))) as [Hm Hr].
      rewrite Hm, Hr, invoke_messages.
      destruct (invoke_config m self) as (_ & _ & _ & _ & _ & _ & Hrecv).
      split; [| exact Hrecv].
      cbn [List.filter]. destruct (is_on_publish m); cbn [length]; lia. }
  destruct H as [Hm Hr]. split; [exact Hm |]. split; [exact Hr |].
  rewrite on_disconnect_run. cbn [emitted]. rewrite Hm, Hr.
  case_bool_decide; reflexivity.
Qed.

Lemma session_config (ms : list method) (self : AbstractClient.t) :
  let self' := (session ms self).1 in
  AbstractClient.address self' = AbstractClient.address self /\
  AbstractClient.port self' = AbstractClient.port self /\
  AbstractClient.clientId self' = AbstractClient.clientId self /\
  AbstractClient.organization self' = AbstractClient.organization self /\
  AbstractClient.username self' = AbstractClient.username self /\
  AbstractClient.password self' = AbstractClient.password self.
Proof.
  cbv zeta.
  assert (Hall : forallb (fun _ : method => true) ms = true)
    by (induction ms; auto).
  pose proof (session_invariant (fun _ => true)
    (fun a b =>
       AbstractClient.address b = AbstractClient.address a /\
       AbstractClient.port b = AbstractClient.port a /\
       AbstractClient.clientId b = AbstractClient.clientId a /\
       AbstractClient.organization b = AbstractClient.organization a /\
       AbstractClient.username b = AbstractClient.username a /\
       AbstractClient.password b = AbstractClient.password a)) as Hinv.
  apply Hinv; [auto 10 | | | exact Hall].
  - intros a b c (H1 & H2 & H3 & H4 & H5 & H6) (K1 & K2 & K3 & K4 & K5 & K6).
    repeat split; congruence.
  - intros m s _.
    destruct (invoke_config m s) as (H1 & H2 & H3 & H4 & H5 & H6 & _).
    auto 10.
Qed.

Lemma session_keepAlive (ms : list method) (self : AbstractClient.t) :
  forallb (fun m => negb (is_set_keepalive m)) ms = true ->
  AbstractClient.keepAlive (session ms self).1 = AbstractClient.keepAlive self.
Proof.
  intros Hms. symmetry.
  apply (session_invariant (fun m => negb (is_set_keepalive m))
           (fun a b => AbstractClient.keepAlive a = AbstractClient.keepAlive b));
    [reflexivity | intros a b c; congruence | | exact Hms].
  intros m s Hm. symmetry. apply invoke_keepAlive.
  apply negb_true_iff. exact Hm.
Qed.

Lemma session_modules (fmt : string) (ms : list method)
    (self : AbstractClient.t) :
  forallb (fun m => negb (sets_module fmt m)) ms = true ->
  AbstractClient._messageEncoderModules (session ms self).1 !! fmt
  = AbstractClient._messageEncoderModules self !! fmt.
Proof.
  intros Hms. symmetry.
  apply (session_invariant (fun m => negb (sets_module fmt m))
           (fun a b => AbstractClient._messageEncoderModules a !! fmt
                       = AbstractClient._messageEncoderModules b !! fmt));
    [reflexivity | intros a b c; congruence | | exact Hms].
  intros m s Hm. symmetry. apply invoke_modules.
  apply negb_true_iff. exact Hm.
Qed.

Lemma session_callbacks (mid : Z) (ms : list method)
    (self : AbstractClient.t) :
  forallb (fun m => negb (acknowledges mid m)) ms = true ->
  AbstractClient._onPublishCallbacks (session ms self).1 !! mid
  = AbstractClient._onPublishCallbacks self !! mid.
Proof.
  intros Hms. symmetry.
  apply (session_invariant (fun m => negb (acknowledges mid m))
           (fun a b => AbstractClient._onPublishCallbacks a !! mid
                       = AbstractClient._onPublishCallbacks b !! mid));
    [reflexivity | intros a b c; congruence | | exact Hms].
  intros m s Hm. symmetry. apply invoke_callbacks.
  apply negb_true_iff. exact Hm.
Qed.

(** X7: what a session cannot change.  The address, the port, the client
    id, the organization and the credentials stay as [__init__] set them;
    the keep-alive interval changes only by [setKeepAliveInterval], the
    module of a format only by [setMessageEncoderModule] of that format, and
    the slot of a publish identifier only by [on_publish] of that
    identifier. *)
Theorem session_frame (ms : list method) (self : AbstractClient.t) :
  let self' := (session ms self).1 in
  (AbstractClient.address self' = AbstractClient.address self /\
   AbstractClient.port self' = AbstractClient.port self /\
   AbstractClient.clientId self' = AbstractClient.clientId self /\
   AbstractClient.organization self' = AbstractClient.organization self /\
   AbstractClient.username self' = AbstractClient.username self /\
   AbstractClient.password self' = AbstractClient.password self) /\
  (forallb (fun m => negb (is_set_keepalive m)) ms = true ->
   AbstractClient.keepAlive self' = AbstractClient.keepAlive self) /\
  (forall fmt : string,
     forallb (fun m => negb (sets_module fmt m)) ms = true ->
     AbstractClient._messageEncoderModules self' !! fmt
     = AbstractClient._messageEncoderModules self !! fmt) /\
  (forall mid : Z,
     forallb (fun m => negb (acknowledges mid m)) ms = true ->
     AbstractClient._onPublishCallbacks self' !! mid
     = AbstractClient._onPublishCallbacks self !! mid).
Proof.
  cbv zeta. split; [apply session_config |]. split; [apply session_keepAlive |].
  split; [intros fmt; apply session_modules | intros mid; apply session_callbacks].
Qed.

Lemma session_frame_witness :
  let ms := [SetMessageEncoderModule "json" 1%nat; OnPublish 7 None;
             Connect (Transport None false); Disconnect] in
  forallb (fun m => negb (is_set_keepalive m)) ms = true /\
  forallb (fun m => negb (sets_module "xml" m)) ms = true /\
  forallb (fun m => negb (acknowledges 8 m)) ms = true /\
  AbstractClient.keepAlive (session ms sample_client).1 = 60 /\
  AbstractClient._messageEncoderModules (session ms sample_client).1 !! "xml"
  = None /\
  AbstractClient._onPublishCallbacks (session ms sample_client).1 !! 8 = None.
Proof.
  intros ms.
  destruct (session_frame ms sample_client) as (_ & Hk & Hm & Hc).
  split; [reflexivity |]. split; [reflexivity |]. split; [reflexivity |].
  split; [exact (Hk eq_refl) |].
  split; [exact (Hm "xml" eq_refl) | exact (Hc 8 eq_refl)].
Defined.

(** Every [connect] starts with its debug record and one call of
    [self.client.connect] on the address, the port and the keep-alive
    interval of the client; no other call of it follows. *)
Lemma connect_emits (env : transport) (self : AbstractClient.t) :
  exists rest : list event,
    emitted (AbstractClient.connect env self)
    = EvLog Debug (Text (AbstractClient.connecting self))
      :: EvConnect (AbstractClient.address self) (AbstractClient.port self)
           (AbstractClient.keepAlive self)
      :: rest /\
    forall (a : string) (p k : Z), EvConnect a p k ∉ rest.
Proof.
  destruct (connect_cases env self)
    as [[Hc Hs] | [[Hc Hs] | [(e & Hc & Hs) | (e & Hc & Hs)]]].
  - rewrite (connect_signalled env self Hc Hs). eexists.
    split; [reflexivity |]. intros a p k. not_in_list.
  - rewrite (connect_timeout env self Hc Hs). eexists.
    split; [reflexivity |]. intros a p k. not_in_list.
  - rewrite (connect_socket_error env self e Hc Hs). eexists.
    split; [reflexivity |]. intros a p k. not_in_list.
  - rewrite (connect_other_error env self e Hc Hs). eexists.
    split; [reflexivity |]. intros a p k. not_in_list.
Qed.

(** X8: the interval given to [setKeepAliveInterval] is the one
    [getKeepAliveInterval] returns and the one the next [connect] hands to
    the transport, whatever is called in between short of another
    [setKeepAliveInterval]; and [connect] calls [self.client.connect] exactly
    once, on the address and port the client was built with. *)
Theorem keepAlive_reaches_transport (n : Z) (between : list method)
    (env : transport) (self : AbstractClient.t) :
  forallb (fun m => negb (is_set_keepalive m)) between = true ->
  let self' := (session (SetKeepAliveInterval n :: between) self).1 in
  result (AbstractClient.getKeepAliveInterval self') = inr n /\
  (forall (a : string) (p k : Z),
     EvConnect a p k ∈ emitted (AbstractClient.connect env self')
     <-> a = AbstractClient.address self /\
         p = AbstractClient.port self /\ k = n) /\
  length (List.filter (fun ev => match ev with
                                 | EvConnect _ _ _ => true
                                 | _ => false
                                 end)
            (emitted (AbstractClient.connect env self'))) = 1%nat.
Proof.
  intros Hbetween self'.
  assert (Hk : AbstractClient.keepAlive self' = n).
  { subst self'. rewrite session_cons. cbn [fst].
    rewrite (session_keepAlive between _ Hbetween). reflexivity. }
  destruct (session_config (SetKeepAliveInterval n :: between) self)
    as (Ha & Hp & _).
  fold self' in Ha, Hp.
  destruct (connect_emits env self') as (rest & Hev & Hrest).
  rewrite Hev, Ha, Hp, Hk. split; [cbn; congruence |]. split.
  - intros a p k. split.
    + intros Hin. apply elem_of_cons in Hin as [Hin | Hin]; [discriminate Hin |].
      apply elem_of_cons in Hin as [Hin | Hin]; [injection Hin; auto |].
      exfalso. exact (Hrest a p k Hin).
    + intros (-> & -> & ->). right. left.
  - cbn [List.filter length]. f_equal.
    assert (Hnone : forall evs : list event,
               (forall (a : string) (p k : Z), EvConnect a p k ∉ evs) ->
               List.filter (fun ev => match ev with
                                      | EvConnect _ _ _ => true
                                      | _ => false
                                      end) evs = []).
    { induction evs as [| ev evs IH]; intros Hno; [reflexivity |].
      cbn [List.filter]. destruct ev;
        try (apply IH; intros a p k Hin; apply (Hno a p k); right; exact Hin).
      exfalso. eapply Hno. left. }
    rewrite (Hnone rest Hrest). reflexivity.
Qed.

Lemma keepAlive_reaches_transport_witness :
  let between := [OnPublish 7 None; Disconnect; GetKeepAliveInterval] in
  let self' := (session (SetKeepAliveInterval 30 :: between) sample_client).1 in
  forallb (fun m => negb (is_set_keepalive m)) between = true /\
  result (AbstractClient.getKeepAliveInterval self') = inr 30 /\
  EvConnect "org1.messaging.x.com" 8883 30
    ∈ emitted (AbstractClient.connect (Transport None true) self').
Proof.
  intros between self'.
  destruct (keepAlive_reaches_transport 30 between (Transport None true)
              sample_client eq_refl) as (Hget & Hconn & _).
  split; [reflexivity |]. split; [exact Hget |].
  apply Hconn. repeat split.
Defined.

(** ** Construction *)






(** ** The HTTP client's log handlers *)

Lemma replace_length (old new : ascii) (s : string) :
  String.length (HttpAbstractClient.replace old new s) = String.length s.
Proof.
  induction s as [| c s IH]; [reflexivity |].
  cbn [HttpAbstractClient.replace String.length]. rewrite IH. reflexivity.
Qed.

Lemma append_length (s s' : string) :
  String.length (s +:+ s') = (String.length s + String.length s')%nat.
Proof.
  induction s as [| c s IH]; [reflexivity |].
  change (S (String.length (s +:+ s'))
          = S (String.length s + String.length s')%nat).
  rewrite IH. reflexivity.
Qed.

(** A string without [old] is left as it is. *)
Lemma replace_absent (old new : ascii) (s : string) :
  (forall n : nat, String.get n s <> Some old) ->
  HttpAbstractClient.replace old new s = s.
Proof.
  induction s as [| c s IH]; intros Hs; [reflexivity |].
  cbn [HttpAbstractClient.replace].
  destruct (Ascii.eqb_spec c old) as [-> | Hc].
  - exfalso. exact (Hs 0%nat eq_refl).
  - rewrite IH; [reflexivity |]. intros n. exact (Hs (S n)).
Qed.

Lemma logFileName_get (clientId : string) (n : nat) (c : ascii) :
  String.get n clientId = Some c ->
  String.get n (HttpAbstractClient.logFileName clientId)
  = Some (if Ascii.eqb c ":" then "_"%char else c).
Proof.
  unfold HttpAbstractClient.logFileName. revert n.
  induction clientId as [| a s IH]; intros n Hn; [destruct n; discriminate |].
  destruct n as [| n].
  - injection Hn as ->. reflexivity.
  - apply IH. exact Hn.
Qed.

Lemma logFileName_no_colon (clientId : string) (n : nat) :
  String.get n (HttpAbstractClient.logFileName clientId) <> Some ":"%char.
Proof.
  unfold HttpAbstractClient.logFileName. revert n.
  induction clientId as [| a s IH]; intros n.
  - do 5 (destruct n as [| n]; [discriminate |]). discriminate.
  - destruct n as [| n].
    + change (Some (if Ascii.eqb a ":" then "_"%char else a) <> Some ":"%char).
      destruct (Ascii.eqb_spec a ":") as [-> | Ha]; [discriminate | congruence].
    + apply IH.
Qed.

(** X12: the log handlers of a new HTTP client.  With [None] or an empty
    list as [logHandlers] the two defaults are added, a rotating file handler
    and a stream handler; otherwise only the supplied handlers are added, in
    the order given, and no log file is named.  The file of the default
    handler is the client id with every colon replaced by an underscore,
    followed by ".log": it has no colon at any position, is four characters
    longer than the client id, agrees with it wherever the client id has no
    colon, and is the client id plus ".log" when the client id has none. *)
Theorem http_init_handlers (clientId : string)
    (logHandlers : HttpAbstractClient.logHandlers_arg) :
  let handlers := HttpAbstractClient.__init__handlers clientId logHandlers in
  let name := HttpAbstractClient.logFileName clientId in
  (logHandlers = HttpAbstractClient.NoHandlers \/
   logHandlers = HttpAbstractClient.HandlerList [] ->
   handlers = [HttpAbstractClient.RotatingFileHandler name 1024000 0;
               HttpAbstractClient.StreamHandler]) /\
  (forall supplied : list pyref,
     logHandlers = HttpAbstractClient.HandlerList supplied -> supplied <> [] ->
     handlers = map HttpAbstractClient.Supplied supplied) /\
  (forall h : pyref,
     logHandlers = HttpAbstractClient.OneHandler h ->
     handlers = [HttpAbstractClient.Supplied h]) /\
  (forall n : nat, String.get n name <> Some ":"%char) /\
  String.length name = (String.length clientId + 4)%nat /\
  (forall (n : nat) (c : ascii),
     String.get n clientId = Some c ->
     String.get n name = Some (if Ascii.eqb c ":" then "_"%char else c)) /\
  ((forall n : nat, String.get n clientId <> Some ":"%char) ->
   name = clientId +:+ ".log").
Proof.
  cbv zeta. split; [| split; [| split; [| split; [| split; [| split]]]]].
  - intros [-> | ->]; reflexivity.
  - intros supplied -> Hne. destruct supplied; [contradiction | reflexivity].
  - intros h ->. reflexivity.
  - apply logFileName_no_colon.
  - unfold HttpAbstractClient.logFileName.
    rewrite append_length, replace_length. reflexivity.
  - apply logFileName_get.
  - intros Hno. unfold HttpAbstractClient.logFileName.
    rewrite (replace_absent ":" "_" clientId Hno). reflexivity.
Qed.

Lemma http_init_handlers_witness :
  HttpAbstractClient.__init__handlers "d:org1:type:dev"
    (HttpAbstractClient.HandlerList [])
  = [HttpAbstractClient.RotatingFileHandler "d_org1_type_dev.log" 1024000 0;
     HttpAbstractClient.StreamHandler] /\
  [4%nat; 9%nat] <> [] /\
  HttpAbstractClient.__init__handlers "d:org1:type:dev"
    (HttpAbstractClient.HandlerList [4%nat; 9%nat])
  = [HttpAbstractClient.Supplied 4%nat; HttpAbstractClient.Supplied 9%nat] /\
  String.get 1 "d:org1:type:dev" = Some ":"%char /\
  String.get 1 (HttpAbstractClient.logFileName "d:org1:type:dev")
  = Some "_"%char.
Proof.
  destruct (http_init_handlers "d:org1:type:dev"
              (HttpAbstractClient.HandlerList [])) as (Hdefault & _ & _ & _ & _ & Hget & _).
  destruct (http_init_handlers "d:org1:type:dev"
              (HttpAbstractClient.HandlerList [4%nat; 9%nat]))
    as (_ & Hsupplied & _).
  assert (Hne : [4%nat; 9%nat] <> []) by discriminate.
  split; [exact (Hdefault (or_intror eq_refl)) |].
  split; [exact Hne |].
  split; [exact (Hsupplied [4%nat; 9%nat] eq_refl Hne) |].
  split; [reflexivity |].
  exact (Hget 1%nat ":"%char eq_refl).
Defined.

(** ** What an [except] clause takes *)

(** [str] of a [KeyError] is the [repr] of its key. *)
Example KeyError_str :
  exn_str (KeyError "json") = "'json'" /\
  exn_str (KeyError "it's")
  = String double_quote ("it's" +:+ String double_quote EmptyString) /\
  exn_str (KeyError (String (ascii_of_nat 9) "a"))
  = String apostrophe (String backslash ("ta" +:+ "'")).
Proof. repeat split. Qed.

Lemma issubclass_antisym (c d : Cls.t) :
  Cls.issubclass c d = true -> Cls.issubclass d c = true -> c = d.
Proof. destruct c, d; try reflexivity; discriminate. Qed.

(** X13: the exception classes form a tree under [ConnectionException] and
    [Exception].  An [except ConnectionException] clause takes exactly the
    exceptions of the classes [ConnectionException],
    [ConfigurationException] and [UnsupportedAuthenticationMethod]; it takes
    none of the missing-codec errors, [InvalidEventException],
    [APIException], socket errors or the built-in lookup and type errors.
    An [except socket.error] clause takes socket errors only, so never one
    of the module's own exceptions.  Every exception is taken by
    [except Exception], and subclassing is a partial order. *)
Theorem except_clauses :
  (forall e : exn,
     isinstance e Cls.ConnectionException = true
     <-> (exists reason : string, e = ConnectionException reason) \/
         (exists reason : string, e = ConfigurationException reason) \/
         (exists method : string, e = UnsupportedAuthenticationMethod method)) /\
  (forall e : exn,
     isinstance e Cls.OSError = true
     <-> exists detail : string, e = socket_error detail) /\
  (forall e : exn, isinstance e Cls.Exception = true) /\
  (forall c : Cls.t, Cls.issubclass c c = true) /\
  (forall c d : Cls.t,
     Cls.issubclass c d = true -> Cls.issubclass d c = true -> c = d) /\
  (forall c d e : Cls.t,
     Cls.issubclass c d = true -> Cls.issubclass d e = true ->
     Cls.issubclass c e = true).
Proof.
  split; [| split; [| split; [| split; [| split]]]].
  - intros e. split.
    + destruct e; try discriminate; eauto.
    + intros [[r ->] | [[r ->] | [m ->]]]; reflexivity.
  - intros e. split.
    + destruct e; try discriminate; eauto.
    + intros [d ->]. reflexivity.
  - intros e. destruct e; reflexivity.
  - apply issubclass_refl.
  - apply issubclass_antisym.
  - apply issubclass_trans.
Qed.

Lemma except_clauses_witness :
  isinstance (UnsupportedAuthenticationMethod "token") Cls.ConnectionException
  = true /\
  (isinstance (MissingMessageEncoderException "json") Cls.ConnectionException
   = true -> False).
Proof.
  destruct except_clauses as (Hconn & _).
  split.
  - apply Hconn. right. right. exists "token". reflexivity.
  - intros H. apply Hconn in H as [[r H] | [[r H] | [m H]]]; discriminate H.
Defined.

(** ** Acknowledgements nobody registers for *)

Lemma results_cons (m : method) (rest : list method)
    (self : AbstractClient.t) :
  results (m :: rest) self
  = result (invoke m self) :: results rest (final (invoke m self)).
Proof. reflexivity. Qed.

(** X14: acknowledgements of distinct identifiers whose slots are empty,
    with no registration: every one of the calls returns normally and none
    emits anything, so nothing is called; each leaves its sentinel behind
    and no other slot changes, so the registry has grown by one entry per
    identifier. *)
Theorem unregistered_acknowledgements_accumulate
    (acks : list (Z * option exn)) :
  forall self : AbstractClient.t,
  let calls := map (fun a => OnPublish a.1 a.2) acks in
  NoDup acks.*1 ->
  (forall mid : Z,
     mid ∈ acks.*1 -> AbstractClient._onPublishCallbacks self !! mid = None) ->
  let self' := (session calls self).1 in
  results calls self = replicate (length acks) (inr tt) /\
  (session calls self).2 = [] /\
  (forall mid : Z,
     AbstractClient._onPublishCallbacks self' !! mid
     = if decide (mid ∈ acks.*1) then Some None
       else AbstractClient._onPublishCallbacks self !! mid) /\
  size (AbstractClient._onPublishCallbacks self')
  = (size (AbstractClient._onPublishCallbacks self) + length acks)%nat.
Proof.
  induction acks as [| [m raises] rest IH]; intros self; cbv zeta;
    intros Hnodup Habsent.
  - cbn. split; [reflexivity |]. split; [reflexivity |]. split; [| lia].
    intros mid. case_decide as Hin; [inversion Hin | reflexivity].
  - cbn [fmap list_fmap fst] in Hnodup, Habsent |- *.
    apply NoDup_cons in Hnodup as [Hm Hrest].
    assert (Hslot : AbstractClient._onPublishCallbacks self !! m = None)
      by (apply Habsent; left).
    cbn [map fst snd]. rewrite session_cons, results_cons.
    cbn [invoke fst snd].
    rewrite (on_publish_absent m raises self Hslot). cbn [final emitted result].
    set (s1 := AbstractClient.set__onPublishCallbacks _ _).
    assert (Habsent1 : forall mid : Z,
               mid ∈ rest.*1 ->
               AbstractClient._onPublishCallbacks s1 !! mid = None).
    { intros mid Hin. subst s1. cbn. rewrite lookup_insert_ne.
      - apply Habsent. right. exact Hin.
      - intros ->. contradiction. }
    destruct (IH s1 Hrest Habsent1) as (Hres & Hev & Hlook & Hsize).
    split; [cbn [length replicate]; rewrite Hres; reflexivity |].
    split; [rewrite Hev; reflexivity |]. split.
    + intros mid. rewrite Hlook.
      destruct (decide (mid = m)) as [-> | Hne].
      * rewrite decide_False by exact Hm.
        rewrite decide_True by left.
        subst s1. cbn. apply lookup_insert_eq.
      * destruct (decide (mid ∈ rest.*1)) as [Hin | Hnin].
        -- rewrite decide_True by (right; exact Hin). reflexivity.
        -- rewrite decide_False
             by (intros Hin; apply elem_of_cons in Hin as [? | ?]; contradiction).
           subst s1. cbn. apply lookup_insert_ne. congruence.
    + rewrite Hsize. subst s1. cbn [length].
      change (AbstractClient._onPublishCallbacks
                (AbstractClient.set__onPublishCallbacks
                   (<[m:=None]> (AbstractClient._onPublishCallbacks self))
                   (AbstractClient.set_messages
                      (AbstractClient.messages self + 1) self)))
        with (<[m:=None]> (AbstractClient._onPublishCallbacks self)).
      rewrite (map_size_insert_None _ _ _ Hslot). lia.
Qed.

Lemma unregistered_acknowledgements_accumulate_witness :
  let acks := [(7, None); (8, Some (TypeError "boom")); (9, None)] in
  let calls := map (fun a => OnPublish a.1 a.2) acks in
  NoDup acks.*1 /\
  results calls sample_client = [inr tt; inr tt; inr tt] /\
  (session calls sample_client).2 = [] /\
  size (AbstractClient._onPublishCallbacks (session calls sample_client).1)
  = 3%nat.
Proof.
  intros acks calls.
  assert (Hnodup : NoDup acks.*1).
  { cbn. repeat (apply NoDup_cons; split; [not_in_list |]). apply NoDup_nil_2. }
  assert (Habsent : forall mid : Z,
             mid ∈ acks.*1 ->
             AbstractClient._onPublishCallbacks sample_client !! mid = None)
    by (intros mid _; apply lookup_empty).
  destruct (unregistered_acknowledgements_accumulate acks sample_client
              Hnodup Habsent) as (Hres & Hev & _ & Hsize).
  split; [exact Hnodup |]. split; [exact Hres |]. split; [exact Hev |].
  exact Hsize.
Defined.
